(** * Site analyzer front end ([script.js]): a shallow embedding

    The script is two DOM event handlers over one global variable
    ([currentReportPDF]) and a handful of page elements.  The embedding has
    three layers:

    - [JS]: the fragment of the language and of the browser platform that the
      script calls ([trim], truthiness, property reads, [toFixed], string
      conversion, [atob]), following ECMA-262 and the HTML standard;
    - [Script]: the script itself, written in a state-and-exception monad over
      the page state, one definition per source function or handler;
    - [Base64]: the standard base64 encoding the analysis service applies to
      the report, which the download handler undoes.  *)

From Stdlib Require Import String Ascii Decimal DecimalN.
From Stdlib Require Import ZArith NArith List Bool Lia SpecFloat.
From Stdlib Require Import Strings.Byte.
Import ListNotations.

Local Open Scope Z_scope.

(* ================================================================== *)
(** * The language and platform fragment *)
(* ================================================================== *)

Module JS.

(** ** Strings

    A JavaScript string is a sequence of UTF-16 code units. *)

Definition jsstring := list N.

Definition lit (s : string) : jsstring :=
  map N_of_ascii (list_ascii_of_string s).

(** ** Numbers

    A Number is an IEEE 754 binary64 value; [spec_float] is the Standard
    Library's specification type for those (sign, mantissa, exponent). *)

Definition number := spec_float.

Definition prec : Z := 53.
Definition emax : Z := 1024.

(** The Number a decimal literal [m * 10^(-k)] denotes ([k >= 0]): the
    correctly rounded quotient.  Used to write response bodies down. *)
Definition decimal (m : Z) (k : Z) : number :=
  match m with
  | Z0 => S754_zero false
  | Zpos p => SFdiv prec emax (S754_finite false p 0) (S754_finite false (Z.to_pos (10 ^ k)) 0)
  | Zneg p => SFdiv prec emax (S754_finite true p 0) (S754_finite false (Z.to_pos (10 ^ k)) 0)
  end.

(** The Number nearest to an integer. *)
Definition integer (m : Z) : number := binary_normalize prec emax m 0 false.

(** *** Decimal digits of a natural number *)

Fixpoint uint_chars (u : Decimal.uint) : jsstring :=
  match u with
  | Nil => []
  | D0 u => 48%N :: uint_chars u
  | D1 u => 49%N :: uint_chars u
  | D2 u => 50%N :: uint_chars u
  | D3 u => 51%N :: uint_chars u
  | D4 u => 52%N :: uint_chars u
  | D5 u => 53%N :: uint_chars u
  | D6 u => 54%N :: uint_chars u
  | D7 u => 55%N :: uint_chars u
  | D8 u => 56%N :: uint_chars u
  | D9 u => 57%N :: uint_chars u
  end.

(** "the digits of the decimal representation of n (in order, with no leading
    zeroes)"; ["0"] for zero. *)
Definition decimal_digits (n : Z) : jsstring := uint_chars (N.to_uint (Z.to_N n)).

Definition is_digit (c : N) : bool := ((48 <=? c) && (c <=? 57))%N.

(** *** [Number.prototype.toFixed] (ECMA-262, 21.1.3.3) *)

(** [m * 2^e >= 10^21], for [m > 0]. *)
Definition ge_1e21 (m : Z) (e : Z) : bool :=
  if 0 <=? e then 10 ^ 21 <=? m * 2 ^ e else 10 ^ 21 * 2 ^ (- e) <=? m.

(** "Let n be an integer for which n / 10^f - x is as close to zero as
    possible.  If there are two such n, pick the larger n", for
    [x = m * 2^e]: the floor of [x * 10^f + 1/2]. *)
Definition nearest_scaled (m e : Z) (f : Z) : Z :=
  if 0 <=? e then m * 2 ^ e * 10 ^ f
  else (2 * m * 10 ^ f + 2 ^ (- e)) / 2 ^ (- e + 1).

Definition zeros (n : nat) : jsstring := repeat 48%N n.

(** Steps 11.b-11.c: the digits of [n] with a point before the last [f]. *)
Definition fixed_digits (n : Z) (f : nat) : jsstring :=
  let m := decimal_digits n in
  match f with
  | O => m
  | _ =>
    let k := length m in
    let m := if (k <=? f)%nat then zeros (f + 1 - k) ++ m else m in
    let k := length m in
    firstn (k - f) m ++ lit "." ++ skipn (k - f) m
  end.

(** *** [Number::toString] (ECMA-262, 6.1.6.1.20), radix 10

    For a finite positive [x = m * 2^e] the standard asks for integers
    [n], [k], [s] with [10^(k-1) <= s < 10^k], [s * 10^(n-k)] rounding to [x],
    and [k] as small as possible, the [s] closest to [x] being chosen (ties to
    even).  The decimals that round to [x] are those of its rounding
    interval, which is measured here in units of [2^(e-2)]: from [4m - 2]
    (or [4m - 1] just above a power of two) to [4m + 2], closed when [m] is
    even. *)

Definition emin : Z := SpecFloat.emin prec emax.

Definition interval_low (m : positive) (e : Z) : Z :=
  if (Zpos m =? 2 ^ (prec - 1)) && (emin <? e) then 4 * Zpos m - 1 else 4 * Zpos m - 2.

Definition interval_high (m : positive) : Z := 4 * Zpos m + 2.

(** [s * 10^q], in units of [2^(e-2)], is [s * A / C]. *)
Definition scale_num (e q : Z) : Z := 10 ^ Z.max q 0 * 2 ^ Z.max (- (e - 2)) 0.
Definition scale_den (e q : Z) : Z := 10 ^ Z.max (- q) 0 * 2 ^ Z.max (e - 2) 0.

(** The [s] for which [s * 10^q] rounds to [x] and is closest to it. *)
Definition candidate (m : positive) (e q : Z) : option Z :=
  let A := scale_num e q in
  let C := scale_den e q in
  let lo := interval_low m e * C in
  let hi := interval_high m * C in
  let closed := Z.even (Zpos m) in
  let s_min := Z.max 1 (if closed then (lo + A - 1) / A else lo / A + 1) in
  let s_max := if closed then hi / A else (hi + A - 1) / A - 1 in
  if s_max <? s_min then None
  else
    let X := 4 * Zpos m * C in
    let s0 := X / A in
    let s1 := s0 + 1 in
    let d0 := X - s0 * A in
    let d1 := s1 * A - X in
    let near := if d0 <? d1 then s0 else if d1 <? d0 then s1
                else if Z.even s0 then s0 else s1 in
    Some (Z.min s_max (Z.max s_min near)).

(** The largest [q] that has a candidate gives the fewest digits; the search
    starts above [log10 x] and needs fewer than twenty steps. *)
Fixpoint shortest_from (steps : nat) (m : positive) (e q : Z) : Z * Z :=
  match candidate m e q with
  | Some s => (s, q)
  | None =>
    match steps with
    | O => (Zpos m * 2 ^ Z.max e 0, 0)
    | S steps' => shortest_from steps' m e (q - 1)
    end
  end.

Definition shortest (m : positive) (e : Z) : Z * Z :=
  let bits := Zpos (digits2_pos m) + e + 1 in
  shortest_from 400 m e (bits * 30103 / 100000 + 1).

Definition exponent_part (n : Z) : jsstring :=
  lit "e" ++ (if 0 <=? n - 1 then lit "+" else lit "-") ++ decimal_digits (Z.abs (n - 1)).

(** Steps 6-10 of [Number::toString]: the layout of the digits [s] (there are
    [k] of them) for the decimal exponent [n]. *)
Definition layout (digits : jsstring) (n : Z) : jsstring :=
  let k := Z.of_nat (length digits) in
  if (-5 <=? n) && (n <=? 21) then
    if k <=? n then digits ++ zeros (Z.to_nat (n - k))
    else if 0 <? n then
      firstn (Z.to_nat n) digits ++ lit "." ++ skipn (Z.to_nat n) digits
    else lit "0." ++ zeros (Z.to_nat (- n)) ++ digits
  else if k =? 1 then digits ++ exponent_part n
  else firstn 1 digits ++ lit "." ++ skipn 1 digits ++ exponent_part n.

Definition positive_toString (m : positive) (e : Z) : jsstring :=
  let '(s, q) := shortest m e in
  let digits := decimal_digits s in
  layout digits (Z.of_nat (length digits) + q).

Definition Number_toString (x : number) : jsstring :=
  match x with
  | S754_nan => lit "NaN"
  | S754_zero _ => lit "0"
  | S754_infinity false => lit "Infinity"
  | S754_infinity true => lit "-Infinity"
  | S754_finite false m e => positive_toString m e
  | S754_finite true m e => lit "-" ++ positive_toString m e
  end.

(** [x.toFixed(f)] for [0 <= f <= 100] (the range check is made where the
    method is called). *)
Definition Number_toFixed (x : number) (f : nat) : jsstring :=
  match x with
  | S754_nan | S754_infinity _ => Number_toString x
  | S754_zero _ => fixed_digits 0 f
  | S754_finite sign m e =>
    (if sign then lit "-" else []) ++
    (if ge_1e21 (Zpos m) e then positive_toString m e
     else fixed_digits (nearest_scaled (Zpos m) e (Z.of_nat f)) f)
  end.

(** ** Values

    The values the script handles are those [response.json()] can produce
    (JSON data), plus [undefined]. *)

#[warnings="-register-all"]
Inductive value : Type :=
  | Undefined
  | Null
  | Bool (b : bool)
  | Num (x : number)
  | Str (s : jsstring)
  | Obj (props : list (jsstring * value))
  | Arr (elems : list value).

(** ** Exceptions *)

Inductive exn_name : Type :=
  | Error | TypeError | RangeError | SyntaxError | InvalidCharacterError.

(** A thrown error object; [message] is what [error.message] reads. *)
Record exn : Type := mkExn { name : exn_name; message : jsstring }.

Inductive completion (A : Type) : Type :=
  | Normal (a : A)
  | Throw (e : exn).

Arguments Normal {A} a.
Arguments Throw {A} e.

Definition cbind {A B} (c : completion A) (k : A -> completion B) : completion B :=
  match c with
  | Normal a => k a
  | Throw e => Throw e
  end.

(** The wording of engine-raised errors is the engine's own; V8's is used. *)
Definition cannot_read (v : value) (key : string) : exn :=
  mkExn TypeError
    (lit "Cannot read properties of " ++
     (match v with Null => lit "null" | _ => lit "undefined" end) ++
     lit " (reading '" ++ lit key ++ lit "')").

Definition not_a_function (expr : string) : exn :=
  mkExn TypeError (lit expr ++ lit " is not a function").

Definition cannot_convert : exn :=
  mkExn TypeError (lit "Cannot convert object to primitive value").

Definition toFixed_range : exn :=
  mkExn RangeError (lit "toFixed() digits argument must be between 0 and 100").

Definition invalid_character : exn :=
  mkExn InvalidCharacterError
    (lit "Failed to execute 'atob' on 'Window': The string to be decoded is not correctly encoded.").

(** ** Operations on values *)

Fixpoint str_eqb (a b : jsstring) : bool :=
  match a, b with
  | [], [] => true
  | x :: a', y :: b' => (x =? y)%N && str_eqb a' b'
  | _, _ => false
  end.

Fixpoint lookup (key : jsstring) (props : list (jsstring * value)) : option value :=
  match props with
  | [] => None
  | (k, v) :: rest => if str_eqb k key then Some v else lookup key rest
  end.

(** [ToBoolean] (ECMA-262, 7.1.2). *)
Definition ToBoolean (v : value) : bool :=
  match v with
  | Undefined | Null => false
  | Bool b => b
  | Num (S754_zero _) | Num S754_nan => false
  | Num _ => true
  | Str [] => false
  | Str _ => true
  | Obj _ | Arr _ => true
  end.

(** [a || b]. *)
Definition or_else (a b : value) : value := if ToBoolean a then a else b.

(** [v.key], for the keys the script reads: none of them names a property of
    a built-in prototype, so on anything but an object with that key the
    read gives [undefined], and on [undefined] and [null] it throws. *)
Definition Get (v : value) (key : string) : completion value :=
  match v with
  | Undefined | Null => Throw (cannot_read v key)
  | Obj props =>
    match lookup (lit key) props with
    | Some x => Normal x
    | None => Normal Undefined
    end
  | _ => Normal Undefined
  end.

(** [v.toFixed(f)]; [expr] is the text of the callee, which the engine quotes
    when it is not callable.  Only a Number inherits [toFixed]; no JSON value
    is a function. *)
Definition call_toFixed (expr : string) (v : value) (f : nat) : completion jsstring :=
  match v with
  | Undefined | Null => Throw (cannot_read v "toFixed")
  | Num x => if (100 <? f)%nat then Throw toFixed_range else Normal (Number_toFixed x f)
  | _ => Throw (not_a_function expr)
  end.

(** [ToString] (ECMA-262, 7.1.17).  An object from JSON converts through
    [Object.prototype.toString] unless it has a [toString] key of its own,
    whose value is never callable; an array through [Array.prototype.join]. *)
Fixpoint ToString (v : value) : completion jsstring :=
  match v with
  | Undefined => Normal (lit "undefined")
  | Null => Normal (lit "null")
  | Bool true => Normal (lit "true")
  | Bool false => Normal (lit "false")
  | Num x => Normal (Number_toString x)
  | Str s => Normal s
  | Obj props =>
    match lookup (lit "toString") props with
    | Some _ => Throw cannot_convert
    | None => Normal (lit "[object Object]")
    end
  | Arr elems =>
    let element (x : value) : completion jsstring :=
      match x with
      | Undefined | Null => Normal []
      | _ => ToString x
      end in
    (fix join (l : list value) : completion jsstring :=
       match l with
       | [] => Normal []
       | [x] => element x
       | x :: rest =>
         cbind (element x) (fun a => cbind (join rest) (fun b => Normal (a ++ lit "," ++ b)))
       end) elems
  end.

(** ** [String.prototype.trim] (ECMA-262, 22.1.3.32)

    White space is the WhiteSpace and LineTerminator code points. *)
Definition is_whitespace (c : N) : bool :=
  existsb (N.eqb c)
    [0x9; 0xA; 0xB; 0xC; 0xD; 0x20; 0xA0; 0x1680; 0x2028; 0x2029; 0x202F;
     0x205F; 0x3000; 0xFEFF]%N
  || ((0x2000 <=? c) && (c <=? 0x200A))%N.

Fixpoint trim_start (s : jsstring) : jsstring :=
  match s with
  | c :: rest => if is_whitespace c then trim_start rest else s
  | [] => []
  end.

Definition trim_end (s : jsstring) : jsstring := rev (trim_start (rev s)).

Definition trim (s : jsstring) : jsstring := trim_end (trim_start s).

(** ** [atob] (HTML 8.3, through Infra's forgiving-base64 decode) *)

Definition base64_alphabet : jsstring :=
  lit "ABCDEFGHIJKLMNOPQRSTUVWXYZabcdefghijklmnopqrstuvwxyz0123456789+/".

Fixpoint index_of (c : N) (l : jsstring) (i : N) : option N :=
  match l with
  | [] => None
  | x :: rest => if (x =? c)%N then Some i else index_of c rest (i + 1)%N
  end.

(** The number a code point stands for in Table 1 of RFC 4648. *)
Definition base64_value (c : N) : option N := index_of c base64_alphabet 0%N.

Definition is_ascii_whitespace (c : N) : bool :=
  existsb (N.eqb c) [0x9; 0xA; 0xC; 0xD; 0x20]%N.

(** "If data ends with one or two U+003D (=) code points, remove them." *)
Fixpoint drop_padding (data : jsstring) : jsstring :=
  match data with
  | [] => []
  | [61%N] => []
  | [61%N; 61%N] => []
  | c :: rest => c :: drop_padding rest
  end.

Fixpoint sextets (data : jsstring) : option (list N) :=
  match data with
  | [] => Some []
  | c :: rest =>
    match base64_value c, sextets rest with
    | Some n, Some l => Some (n :: l)
    | _, _ => None
    end
  end.

(** Every 24 bits of the buffer give three bytes; 12 left-over bits give one
    byte and 18 give two, the last four or two bits being discarded. *)
Fixpoint bytes_of_sextets (l : list N) : list N :=
  (match l with
   | a :: b :: c :: d :: rest =>
     let n := a * 2 ^ 18 + b * 2 ^ 12 + c * 2 ^ 6 + d in
     n / 2 ^ 16 :: (n / 2 ^ 8) mod 2 ^ 8 :: n mod 2 ^ 8 :: bytes_of_sextets rest
   | [a; b; c] =>
     let n := (a * 2 ^ 12 + b * 2 ^ 6 + c) / 2 ^ 2 in
     [n / 2 ^ 8; n mod 2 ^ 8]
   | [a; b] => [(a * 2 ^ 6 + b) / 2 ^ 4]
   | _ => []
   end)%N.

Definition forgiving_base64_decode (data : jsstring) : option (list N) :=
  let data := filter (fun c => negb (is_ascii_whitespace c)) data in
  let data := if (length data mod 4 =? 0)%nat then drop_padding data else data in
  if (length data mod 4 =? 1)%nat then None
  else option_map bytes_of_sextets (sextets data).

(** [atob(v)]: the argument is converted to a string first; the result is a
    string whose code units are the decoded bytes. *)
Definition atob (v : value) : completion jsstring :=
  cbind (ToString v) (fun data =>
    match forgiving_base64_decode data with
    | Some bytes => Normal bytes
    | None => Throw invalid_character
    end).

(** [ToUint8], the conversion a [Uint8Array] applies to each element. *)
Definition ToUint8 (n : N) : byte :=
  match Byte.of_N (n mod 256) with
  | Some b => b
  | None => x00
  end.

(** The setter of [textContent], a nullable string attribute: [null] and
    [undefined] clear the text, anything else is converted to a string. *)
Definition to_textContent (v : value) : completion jsstring :=
  match v with
  | Undefined | Null => Normal []
  | _ => ToString v
  end.

End JS.


(* ================================================================== *)
(** * The script *)
(* ================================================================== *)

Module Script.
Import JS.

(** ** Page state *)

(** The elements the script looks up by id.  [error] stands both for the
    error box (its class list) and for the paragraph inside it (its text). *)
Inductive id : Type :=
  | loading | results | error
  | resultAddress | resultCoords
  | elevMin | elevMax | elevAvg | elevChange
  | slopeClass | buildability | accessScore.

Definition id_eqb (a b : id) : bool :=
  match a, b with
  | loading, loading | results, results | error, error
  | resultAddress, resultAddress | resultCoords, resultCoords
  | elevMin, elevMin | elevMax, elevMax | elevAvg, elevAvg
  | elevChange, elevChange | slopeClass, slopeClass
  | buildability, buildability | accessScore, accessScore => true
  | _, _ => false
  end.

(** What the handlers do to the world, in the order they do it. *)
Inductive effect : Type :=
  | PreventDefault
  | ClassAdd (e : id)                       (* classList.add('hidden') *)
  | ClassRemove (e : id)                    (* classList.remove('hidden') *)
  | SetText (e : id) (s : jsstring)         (* textContent = s *)
  | StoreReport (v : value)                 (* currentReportPDF = v *)
  | Fetch (url : jsstring) (body : value)   (* POST, JSON body *)
  | ConsoleError (e : exn)
  | ScrollIntoView (e : id)
  | CreateObjectURL (type : jsstring) (bytes : list byte)
  | AppendAnchor (download : jsstring)      (* body.appendChild(a) *)
  | ClickAnchor
  | RevokeObjectURL
  | RemoveAnchor.

Record page : Type := mkPage {
  currentReportPDF : value;
  hidden : id -> bool;        (* the class list has 'hidden' *)
  text : id -> jsstring;      (* textContent *)
  trace : list effect         (* most recent first *)
}.

Definition upd {A} (f : id -> A) (e : id) (a : A) : id -> A :=
  fun e' => if id_eqb e e' then a else f e'.

(** ** Statements: state and exceptions *)

Definition M (A : Type) : Type := page -> completion A * page.

Definition ret {A} (a : A) : M A := fun st => (Normal a, st).

Definition bind {A B} (m : M A) (k : A -> M B) : M B :=
  fun st =>
    match m st with
    | (Normal a, st') => k a st'
    | (Throw e, st') => (Throw e, st')
    end.

Definition throw {A} (e : exn) : M A := fun st => (Throw e, st).

(** An expression that may throw, evaluated as a statement. *)
Definition eval {A} (c : completion A) : M A := fun st => (c, st).

(** [try { body } catch (e) { handler } finally { cleanup }]. *)
Definition try_catch_finally (body : M unit) (handler : exn -> M unit)
    (cleanup : M unit) : M unit :=
  fun st =>
    let '(c, st1) :=
      match body st with
      | (Normal tt, st') => (Normal tt, st')
      | (Throw e, st') => handler e st'
      end in
    match cleanup st1 with
    | (Normal tt, st2) => (c, st2)
    | (Throw e, st2) => (Throw e, st2)
    end.

Declare Scope script_scope.
Delimit Scope script_scope with script.
Notation "x <- m ;; k" := (bind m (fun x => k))
  (at level 61, m at next level, right associativity) : script_scope.
Notation "m ;; k" := (bind m (fun _ => k))
  (at level 61, right associativity) : script_scope.
Local Open Scope script_scope.

Definition emit (ev : effect) : M unit :=
  fun st => (Normal tt, mkPage (currentReportPDF st) (hidden st) (text st) (ev :: trace st)).

Definition classList_add (e : id) : M unit :=
  fun st => (Normal tt, mkPage (currentReportPDF st) (upd (hidden st) e true) (text st)
                               (ClassAdd e :: trace st)).

Definition classList_remove (e : id) : M unit :=
  fun st => (Normal tt, mkPage (currentReportPDF st) (upd (hidden st) e false) (text st)
                               (ClassRemove e :: trace st)).

Definition set_textContent (e : id) (v : value) : M unit :=
  s <- eval (to_textContent v) ;;
  fun st => (Normal tt, mkPage (currentReportPDF st) (hidden st) (upd (text st) e s)
                               (SetText e s :: trace st)).

Definition set_currentReportPDF (v : value) : M unit :=
  fun st => (Normal tt, mkPage v (hidden st) (text st) (StoreReport v :: trace st)).

Definition get_currentReportPDF : M value :=
  fun st => (Normal (currentReportPDF st), st).

(** ** The network, as the handler sees it *)

(** What [response.json()] settles to. *)
Inductive body_outcome : Type :=
  | Parsed (data : value)
  | Unparsable (e : exn).

(** What [fetch] settles to: a rejection (no response reached the client), or
    a response with its [ok] flag and its body. *)
Inductive fetch_outcome : Type :=
  | Rejected (e : exn)
  | Response (ok : bool) (body : body_outcome).

Definition API_URL : jsstring := lit "https://your-backend-url.railway.app".

Definition fetch (url : jsstring) (body : value) (net : fetch_outcome)
    : M (bool * body_outcome) :=
  emit (Fetch url body) ;;
  match net with
  | Rejected e => throw e
  | Response ok b => ret (ok, b)
  end.

Definition response_json (b : body_outcome) : M value :=
  match b with
  | Parsed data => ret data
  | Unparsable e => throw e
  end.

(** ** [showError] (lines 73-77) *)

Definition showError (message : value) : M unit :=
  set_textContent error message ;;
  classList_remove error.

(** ** [displayResults] (lines 46-71) *)

(** [v.toFixed(f)] as a statement; the template literals around it only
    concatenate strings. *)
Definition fixed (expr : string) (v : value) (f : nat) : M jsstring :=
  eval (call_toFixed expr v f).

Definition displayResults (data : value) : M unit :=
  (* Store PDF for download *)
  report_pdf <- eval (Get data "report_pdf") ;;
  set_currentReportPDF report_pdf ;;
  (* Update all result fields *)
  address <- eval (Get data "address") ;;
  set_textContent resultAddress address ;;
  latitude <- eval (Get data "latitude") ;;
  lat <- fixed "data.latitude.toFixed" latitude 6 ;;
  longitude <- eval (Get data "longitude") ;;
  lon <- fixed "data.longitude.toFixed" longitude 6 ;;
  set_textContent resultCoords (Str (lit "Coordinates: " ++ lat ++ lit ", " ++ lon)) ;;
  elevation_min <- eval (Get data "elevation_min") ;;
  lo <- fixed "data.elevation_min.toFixed" elevation_min 1 ;;
  set_textContent elevMin (Str (lo ++ lit "m")) ;;
  elevation_max <- eval (Get data "elevation_max") ;;
  hi <- fixed "data.elevation_max.toFixed" elevation_max 1 ;;
  set_textContent elevMax (Str (hi ++ lit "m")) ;;
  elevation_avg <- eval (Get data "elevation_avg") ;;
  avg <- fixed "data.elevation_avg.toFixed" elevation_avg 1 ;;
  set_textContent elevAvg (Str (avg ++ lit "m")) ;;
  slope_analysis <- eval (Get data "slope_analysis") ;;
  elevation_change_meters <- eval (Get slope_analysis "elevation_change_meters") ;;
  chg <- fixed "data.slope_analysis.elevation_change_meters.toFixed" elevation_change_meters 1 ;;
  set_textContent elevChange (Str (chg ++ lit "m")) ;;
  slope_analysis <- eval (Get data "slope_analysis") ;;
  slope_classification <- eval (Get slope_analysis "slope_classification") ;;
  set_textContent slopeClass slope_classification ;;
  slope_analysis <- eval (Get data "slope_analysis") ;;
  buildability_assessment <- eval (Get slope_analysis "buildability_assessment") ;;
  set_textContent buildability buildability_assessment ;;
  access_score <- eval (Get data "access_score") ;;
  set_textContent accessScore access_score ;;
  (* Show results *)
  classList_remove results ;;
  (* Scroll to results *)
  emit (ScrollIntoView results).

(** ** The submit handler of [analyzeForm] (lines 6-44)

    [input] is the value of [addressInput]; [net] is how the request will
    settle.  The handler is asynchronous; [on_submit] is its run with
    nothing else happening while the request is in flight.  [Phases] below
    splits it at the [await]. *)

Definition message_or (e : exn) (fallback : string) : value :=
  or_else (Str (message e)) (Str (lit fallback)).

(** The [try] block (lines 22-36). *)
Definition analyze (address : jsstring) (net : fetch_outcome) : M unit :=
  response <- fetch (API_URL ++ lit "/analyze")
                    (Obj [(lit "address", Str address)]) net ;;
  let '(ok, body) := response in
  (if negb ok then
     errorData <- response_json body ;;
     detail <- eval (Get errorData "detail") ;;
     msg <- eval (ToString (or_else detail (Str (lit "Analysis failed")))) ;;
     throw (mkExn Error msg)
   else ret tt) ;;
  data <- response_json body ;;
  displayResults data.

(** The [catch] block (lines 39-40). *)
Definition report_failure (err : exn) : M unit :=
  emit (ConsoleError err) ;;
  showError (message_or err "Failed to analyze site. Please try again.").

Definition on_submit (input : jsstring) (net : fetch_outcome) : M unit :=
  emit PreventDefault ;;
  let address := trim input in
  if negb (ToBoolean (Str address)) then
    showError (Str (lit "Please enter an address"))
  else
    (* Show loading, hide results and errors *)
    classList_remove loading ;;
    classList_add results ;;
    classList_add error ;;
    try_catch_finally (analyze address net) report_failure (classList_add loading).

(** ** The click handler of [downloadBtn] (lines 80-103) *)

(** The loop of lines 88-91, from index [i] for [n] more rounds:
    [byteNumbers[i] = byteCharacters.charCodeAt(i)]. *)
Fixpoint charCodes_loop (byteCharacters : jsstring) (byteNumbers : list N)
    (i n : nat) : list N :=
  match n with
  | O => byteNumbers
  | S n' =>
    charCodes_loop byteCharacters
      (firstn i byteNumbers ++ nth i byteCharacters 0%N :: skipn (S i) byteNumbers)
      (S i) n'
  end.

(** Lines 87-92: base64 text to bytes. *)
Definition decode_report (pdf : value) : completion (list byte) :=
  cbind (atob pdf) (fun byteCharacters =>
    let byteNumbers := repeat 0%N (length byteCharacters) in
    let byteNumbers := charCodes_loop byteCharacters byteNumbers 0 (length byteCharacters) in
    Normal (map ToUint8 byteNumbers)).

Definition on_download : M unit :=
  pdf <- get_currentReportPDF ;;
  if negb (ToBoolean pdf) then
    showError (Str (lit "No report available to download"))
  else
    (* Convert base64 to blob and download *)
    byteArray <- eval (decode_report pdf) ;;
    emit (CreateObjectURL (lit "application/pdf") byteArray) ;;
    emit (AppendAnchor (lit "site-analysis-report.pdf")) ;;
    emit ClickAnchor ;;
    emit RevokeObjectURL ;;
    emit RemoveAnchor.

(** The page as the script finds it once loaded (line 4). *)
Definition loaded (hidden0 : id -> bool) (text0 : id -> jsstring) : page :=
  mkPage Null hidden0 text0 [].

End Script.


(* ================================================================== *)
(** * The encoding of the report *)
(* ================================================================== *)

Module Base64.
Import JS.

(** The character of a sextet in Table 1 of RFC 4648. *)
Definition char (n : N) : N := nth (N.to_nat n) base64_alphabet 61%N.

(** Modelled from the spec: the analysis service that produces [report_pdf]
    is not part of the front end; section 3 calls the field a "base64-encoded
    binary payload" and section 4.1 speaks of the "standard base64 alphabet".
    This is the base64 encoding of RFC 4648, section 4, with padding. *)
Fixpoint encode (bytes : list byte) : jsstring :=
  match bytes with
  | [] => []
  | [a] =>
    let a := to_N a in
    [char (a / 4); char (a mod 4 * 16); 61; 61]%N
  | [a; b] =>
    let a := to_N a in
    let b := to_N b in
    [char (a / 4); char (a mod 4 * 16 + b / 16); char (b mod 16 * 4); 61]%N
  | a :: b :: c :: rest =>
    let a := to_N a in
    let b := to_N b in
    let c := to_N c in
    (char (a / 4) :: char (a mod 4 * 16 + b / 16) :: char (b mod 16 * 4 + c / 64)
       :: char (c mod 64) :: encode rest)%N
  end.

(** The same without the padding, and the numbers behind the characters:
    what [atob] sees after its second step. *)
Fixpoint encode_sextets (bytes : list byte) : list N :=
  match bytes with
  | [] => []
  | [a] =>
    let a := to_N a in
    [a / 4; a mod 4 * 16]%N
  | [a; b] =>
    let a := to_N a in
    let b := to_N b in
    [a / 4; a mod 4 * 16 + b / 16; b mod 16 * 4]%N
  | a :: b :: c :: rest =>
    let a := to_N a in
    let b := to_N b in
    let c := to_N c in
    (a / 4 :: a mod 4 * 16 + b / 16 :: b mod 16 * 4 + c / 64 :: c mod 64
       :: encode_sextets rest)%N
  end.

(** A sextet's character decodes to it, and is neither white space nor
    padding. *)
Definition sextet_ok (n : N) : bool :=
  match base64_value (char n) with
  | Some m => (m =? n)%N
  | None => false
  end
  && negb (is_ascii_whitespace (char n))
  && negb (char n =? 61)%N.

End Base64.


(* ================================================================== *)
(** * Vocabulary of the statements *)
(* ================================================================== *)

Module Contract.
Import JS Script.

(** The result structure of the data model: what a successful response is
    expected to carry.  [access_score] is "numeric or text". *)
Record AnalysisResult : Type := mkResult {
  address : jsstring;
  latitude : number;
  longitude : number;
  elevation_min : number;
  elevation_max : number;
  elevation_avg : number;
  elevation_change_meters : number;
  slope_classification : jsstring;
  buildability_assessment : jsstring;
  access_score : number + jsstring
}.

Definition score_value (s : number + jsstring) : value :=
  match s with
  | inl x => Num x
  | inr t => Str t
  end.

(** How a score reads when displayed as it is. *)
Definition score_text (s : number + jsstring) : jsstring :=
  match s with
  | inl x => Number_toString x
  | inr t => t
  end.

(** The response body [data] carries the result [r]: each field is there,
    with its type. *)
Definition carries (data : value) (r : AnalysisResult) : Prop :=
  Get data "address" = Normal (Str (address r)) /\
  Get data "latitude" = Normal (Num (latitude r)) /\
  Get data "longitude" = Normal (Num (longitude r)) /\
  Get data "elevation_min" = Normal (Num (elevation_min r)) /\
  Get data "elevation_max" = Normal (Num (elevation_max r)) /\
  Get data "elevation_avg" = Normal (Num (elevation_avg r)) /\
  Get data "access_score" = Normal (score_value (access_score r)) /\
  exists slope_analysis,
    Get data "slope_analysis" = Normal slope_analysis /\
    Get slope_analysis "elevation_change_meters"
      = Normal (Num (elevation_change_meters r)) /\
    Get slope_analysis "slope_classification"
      = Normal (Str (slope_classification r)) /\
    Get slope_analysis "buildability_assessment"
      = Normal (Str (buildability_assessment r)).

(** A body that carries [r], with or without a report. *)
Definition body_of (r : AnalysisResult) (report_pdf : option jsstring) : value :=
  Obj ([(lit "address", Str (address r));
        (lit "latitude", Num (latitude r));
        (lit "longitude", Num (longitude r));
        (lit "elevation_min", Num (elevation_min r));
        (lit "elevation_max", Num (elevation_max r));
        (lit "elevation_avg", Num (elevation_avg r));
        (lit "slope_analysis",
         Obj [(lit "elevation_change_meters", Num (elevation_change_meters r));
              (lit "slope_classification", Str (slope_classification r));
              (lit "buildability_assessment", Str (buildability_assessment r))]);
        (lit "access_score", score_value (access_score r))]
       ++ match report_pdf with
          | Some b64 => [(lit "report_pdf", Str b64)]
          | None => []
          end).

(** Finite and of magnitude below [10^21]: where [toFixed] writes fixed-point
    notation. *)
Definition fixed_range (x : number) : bool :=
  match x with
  | S754_zero _ => true
  | S754_finite _ m e => negb (ge_1e21 (Zpos m) e)
  | S754_infinity _ | S754_nan => false
  end.

Definition in_fixed_range (r : AnalysisResult) : bool :=
  fixed_range (latitude r) && fixed_range (longitude r) &&
  fixed_range (elevation_min r) && fixed_range (elevation_max r) &&
  fixed_range (elevation_avg r) && fixed_range (elevation_change_meters r).

(** [s] is a decimal numeral with exactly [f] decimal places: an optional
    minus sign, one digit or more, a point, [f] digits. *)
Fixpoint after_digits (s : jsstring) : jsstring :=
  match s with
  | c :: rest => if is_digit c then after_digits rest else s
  | [] => []
  end.

Definition unsigned_decimals (f : nat) (s : jsstring) : bool :=
  match s with
  | c :: _ =>
    is_digit c &&
    match after_digits s with
    | 46%N :: frac => forallb is_digit frac && (length frac =? f)%nat
    | _ => false
    end
  | [] => false
  end.

Definition has_decimals (f : nat) (s : jsstring) : bool :=
  match s with
  | 45%N :: rest => unsigned_decimals f rest
  | _ => unsigned_decimals f s
  end.

(** The display fields hold the fields of [r], numbers in [toFixed]
    notation, the elevations followed by [m]. *)
Definition rendered (r : AnalysisResult) (st : page) : Prop :=
  text st resultAddress = address r /\
  text st resultCoords
    = lit "Coordinates: " ++ Number_toFixed (latitude r) 6
      ++ lit ", " ++ Number_toFixed (longitude r) 6 /\
  text st elevMin = Number_toFixed (elevation_min r) 1 ++ lit "m" /\
  text st elevMax = Number_toFixed (elevation_max r) 1 ++ lit "m" /\
  text st elevAvg = Number_toFixed (elevation_avg r) 1 ++ lit "m" /\
  text st elevChange = Number_toFixed (elevation_change_meters r) 1 ++ lit "m" /\
  text st slopeClass = slope_classification r /\
  text st buildability = buildability_assessment r /\
  text st accessScore = score_text (access_score r).

(** The numerals written by [rendered] have six decimal places for the
    coordinates and one for the elevations. *)
Definition fixed_precision (r : AnalysisResult) : Prop :=
  has_decimals 6 (Number_toFixed (latitude r) 6) = true /\
  has_decimals 6 (Number_toFixed (longitude r) 6) = true /\
  has_decimals 1 (Number_toFixed (elevation_min r) 1) = true /\
  has_decimals 1 (Number_toFixed (elevation_max r) 1) = true /\
  has_decimals 1 (Number_toFixed (elevation_avg r) 1) = true /\
  has_decimals 1 (Number_toFixed (elevation_change_meters r) 1) = true.

(** What the user reads for a caught error: [error.message || fallback]. *)
Definition description_or (e : exn) (fallback : string) : jsstring :=
  match message e with
  | [] => lit fallback
  | m => m
  end.

(** The page while the request is in flight: the pending state has been
    entered (lines 17-19) and the request issued (line 22). *)
Definition awaiting_response (input : jsstring) (st : page) : page :=
  mkPage (currentReportPDF st)
         (upd (upd (upd (hidden st) loading false) results true) error true)
         (text st)
         (Fetch (API_URL ++ lit "/analyze") (Obj [(lit "address", Str (trim input))])
          :: ClassAdd error :: ClassAdd results :: ClassRemove loading
          :: PreventDefault :: trace st).

(** The page after [showError(message)]. *)
Definition error_shown (message : jsstring) (st : page) : page :=
  mkPage (currentReportPDF st) (upd (hidden st) error false)
         (upd (text st) error message)
         (ClassRemove error :: SetText error message :: trace st).

(** The page after one more effect that leaves the elements alone. *)
Definition logged (ev : effect) (st : page) : page :=
  mkPage (currentReportPDF st) (hidden st) (text st) (ev :: trace st).

(** The [try] block case by case, once the request is issued. *)
Definition respond (net : fetch_outcome) (st : page) : completion unit * page :=
  match net with
  | Rejected e => (Throw e, st)
  | Response false (Unparsable e) => (Throw e, st)
  | Response false (Parsed errorData) =>
    (cbind (Get errorData "detail") (fun detail =>
     cbind (ToString (or_else detail (Str (lit "Analysis failed")))) (fun msg =>
     Throw (mkExn Error msg))), st)
  | Response true (Unparsable e) => (Throw e, st)
  | Response true (Parsed data) => displayResults data st
  end.

(** What [catch] makes of the outcome of the [try] block. *)
Definition settle (r : completion unit * page) : completion unit * page :=
  match r with
  | (Normal _, st) => (Normal tt, st)
  | (Throw e, st) => report_failure e st
  end.

(** What [finally] adds. *)
Definition finally_hide_loading (r : completion unit * page) : completion unit * page :=
  let '(c, st) := r in
  (c, mkPage (currentReportPDF st) (upd (hidden st) loading true) (text st)
             (ClassAdd loading :: trace st)).

(** A statement that leaves the report slot alone and only adds effects. *)
Definition rendering_only {A} (m : M A) : Prop :=
  forall st, exists later,
    currentReportPDF (snd (m st)) = currentReportPDF st /\
    trace (snd (m st)) = later ++ trace st.

(** The end-to-end scenario of the specification. *)
Definition salt_lake_city : AnalysisResult :=
  mkResult (lit "350 S 400 E, Salt Lake City, UT")
           (decimal 40760 3) (decimal (-111880) 3)
           (decimal 12800 1) (decimal 13105 1) (decimal 12952 1)
           (decimal 305 1) (lit "Moderate") (lit "Buildable with grading")
           (inl (decimal 75 1)).

(** A page whose elements all start hidden and empty. *)
Definition blank : page := loaded (fun _ => true) (fun _ => []).

End Contract.

(* ================================================================== *)
(** * Vocabulary of the further properties *)
(* ================================================================== *)

Module Observations.
Import JS Script Base64 Contract.

(** What lines 93-102 do once the bytes are there, most recent first: the
    object URL of the PDF blob, the anchor with its fixed file name, the
    click, the URL revoked, the anchor removed. *)
Definition download_effects (bytes : list byte) : list effect :=
  [RemoveAnchor; RevokeObjectURL; ClickAnchor;
   AppendAnchor (lit "site-analysis-report.pdf");
   CreateObjectURL (lit "application/pdf") bytes].

Definition is_fetch (ev : effect) : bool :=
  match ev with
  | Fetch _ _ => true
  | _ => false
  end.

(** The requests a page has issued, most recent first. *)
Definition requests (st : page) : list effect := filter is_fetch (trace st).

(** The request of line 22 for the address typed in. *)
Definition analyze_request (input : jsstring) : effect :=
  Fetch (API_URL ++ lit "/analyze") (Obj [(lit "address", Str (trim input))]).

(** The request settles so that line 36 is reached with a body whose
    properties can be read. *)
Definition reaches_rendering (net : fetch_outcome) : bool :=
  match net with
  | Response true (Parsed Undefined) | Response true (Parsed Null) => false
  | Response true (Parsed _) => true
  | _ => false
  end.

(** Statements that leave the class lists alone. *)
Definition keeps_hidden {A} (m : M A) : Prop :=
  forall st, hidden (snd (m st)) = hidden st.

(** Statements that leave the class lists alone unless they complete, and
    then have shown the result area and nothing else. *)
Definition shows_results_at_end {A} (m : M A) : Prop :=
  forall st,
    match fst (m st) with
    | Normal _ => hidden (snd (m st)) = upd (hidden st) results false
    | Throw _ => hidden (snd (m st)) = hidden st
    end.

(** Statements that issue no request. *)
Definition no_request {A} (m : M A) : Prop :=
  forall st, requests (snd (m st)) = requests st.

Definition not_whitespace (c : N) : bool := negb (is_ascii_whitespace c).

End Observations.


(* ================================================================== *)
(** * The submit handler in two phases *)
(* ================================================================== *)

Module Phases.
Import JS Script Contract Observations.
Local Open Scope script_scope.

(** The submit handler suspends at [await fetch] (line 22) and again at
    [await response.json()] (lines 31, 35); while it is suspended other
    handlers may run and change the page.  No statement between the two
    suspensions touches the page, so the handler has two phases that do:
    the one up to the request, and the one from the point where the request
    (and, for a response, its body) has settled. *)

(** Lines 7-22, up to the request.  The result tells whether a request was
    issued. *)
Definition submit_begin (input : jsstring) : M bool :=
  emit PreventDefault ;;
  let address := trim input in
  if negb (ToBoolean (Str address)) then
    showError (Str (lit "Please enter an address")) ;;
    ret false
  else
    (* Show loading, hide results and errors *)
    classList_remove loading ;;
    classList_add results ;;
    classList_add error ;;
    emit (Fetch (API_URL ++ lit "/analyze") (Obj [(lit "address", Str address)])) ;;
    ret true.

(** The rest of the [try] block (lines 22-36), the request having settled to
    [net]. *)
Definition resume (net : fetch_outcome) : M unit :=
  match net with
  | Rejected e => throw e
  | Response ok body =>
    (if negb ok then
       errorData <- response_json body ;;
       detail <- eval (Get errorData "detail") ;;
       msg <- eval (ToString (or_else detail (Str (lit "Analysis failed")))) ;;
       throw (mkExn Error msg)
     else ret tt) ;;
    data <- response_json body ;;
    displayResults data
  end.

(** Lines 22-43 from there: the rest of [try], then [catch] and [finally].
    It runs on the page as it is when the request has settled. *)
Definition submit_settle (net : fetch_outcome) : M unit :=
  try_catch_finally (resume net) report_failure (classList_add loading).


(** The first character of a string, and the last. *)
Definition first_char (s : jsstring) : N := hd 0%N s.
Definition last_char (s : jsstring) : N := last s 0%N.

End Phases.

(* ================================================================== *)
(** * The download decodes what the service encoded *)
(* ================================================================== *)

Module DecodeFacts.
Import JS Script Base64.

(** Induction three bytes at a time, the way the encoder consumes them. *)
Lemma list_ind3 {A} (P : list A -> Prop) :
  P [] -> (forall a, P [a]) -> (forall a b, P [a; b]) ->
  (forall a b c rest, P rest -> P (a :: b :: c :: rest)) ->
  forall l, P l.
Proof.
  intros H0 H1 H2 H3.
  fix IH 1.
  intros [|a [|b [|c rest]]];
    [exact H0 | apply H1 | apply H2 | apply H3; apply IH].
Qed.

Lemma sextet_table : forallb sextet_ok (map N.of_nat (seq 0 64)) = true.
Proof. vm_compute. reflexivity. Qed.

Lemma sextet_ok_lt n : (n < 64)%N -> sextet_ok n = true.
Proof.
  intros Hn.
  pose proof sextet_table as T.
  rewrite forallb_forall in T. apply T.
  apply in_map_iff. exists (N.to_nat n). split.
  - apply N2Nat.id.
  - apply in_seq. lia.
Qed.

Lemma char_value n : (n < 64)%N -> base64_value (char n) = Some n.
Proof.
  intros Hn. apply sextet_ok_lt in Hn. unfold sextet_ok in Hn.
  apply andb_prop in Hn. destruct Hn as [Hn _].
  apply andb_prop in Hn. destruct Hn as [Hn _].
  destruct (base64_value (char n)) as [m|]; [|discriminate].
  apply N.eqb_eq in Hn. now subst.
Qed.

Lemma char_not_whitespace n : (n < 64)%N -> is_ascii_whitespace (char n) = false.
Proof.
  intros Hn. apply sextet_ok_lt in Hn. unfold sextet_ok in Hn.
  apply andb_prop in Hn. destruct Hn as [Hn _].
  apply andb_prop in Hn. destruct Hn as [_ Hn].
  now apply negb_true_iff in Hn.
Qed.

Lemma char_not_padding n : (n < 64)%N -> char n <> 61%N.
Proof.
  intros Hn. apply sextet_ok_lt in Hn. unfold sextet_ok in Hn.
  apply andb_prop in Hn. destruct Hn as [_ Hn].
  apply negb_true_iff in Hn. now apply N.eqb_neq.
Qed.

Lemma byte_bound (b : byte) : (to_N b < 256)%N.
Proof. pose proof (to_N_bounded b). lia. Qed.

(** The four sextets of a block are in range. *)
Lemma sextets_in_range (a b c : N) :
  (a < 256 -> b < 256 -> c < 256 ->
   a / 4 < 64 /\ a mod 4 * 16 + b / 16 < 64 /\ b mod 16 * 4 + c / 64 < 64 /\
   c mod 64 < 64 /\ a mod 4 * 16 < 64 /\ b mod 16 * 4 < 64)%N.
Proof.
  intros Ha Hb Hc.
  pose proof (N.mod_lt a 4); pose proof (N.mod_lt b 16); pose proof (N.mod_lt c 64).
  assert (a / 4 < 64)%N by (apply N.Div0.div_lt_upper_bound; lia).
  assert (b / 16 < 16)%N by (apply N.Div0.div_lt_upper_bound; lia).
  assert (c / 64 < 4)%N by (apply N.Div0.div_lt_upper_bound; lia).
  lia.
Qed.

(** Regrouping 4 x 6 bits as 3 x 8 bits gives the bytes back. *)
Lemma block_regroup (a b c : N) :
  (a < 256 -> b < 256 -> c < 256 ->
   let n := a / 4 * 2 ^ 18 + (a mod 4 * 16 + b / 16) * 2 ^ 12
            + (b mod 16 * 4 + c / 64) * 2 ^ 6 + c mod 64 in
   n / 2 ^ 16 = a /\ (n / 2 ^ 8) mod 2 ^ 8 = b /\ n mod 2 ^ 8 = c)%N.
Proof.
  intros Ha Hb Hc n.
  assert (Hn : (n = a * 65536 + b * 256 + c)%N).
  { subst n.
    pose proof (N.div_mod a 4); pose proof (N.div_mod b 16); pose proof (N.div_mod c 64).
    change (2 ^ 18)%N with 262144%N; change (2 ^ 12)%N with 4096%N;
      change (2 ^ 6)%N with 64%N.
    lia. }
  change (2 ^ 16)%N with 65536%N; change (2 ^ 8)%N with 256%N.
  assert (H1 : (n / 256 = a * 256 + b)%N).
  { symmetry. apply (N.div_unique n 256 _ c); lia. }
  repeat split.
  - symmetry. apply (N.div_unique n 65536 _ (b * 256 + c)); lia.
  - rewrite H1. symmetry. apply (N.mod_unique _ 256 a); lia.
  - symmetry. apply (N.mod_unique _ 256 (a * 256 + b)); lia.
Qed.

Lemma tail2_regroup (a b : N) :
  (a < 256 -> b < 256 ->
   let n := (a / 4 * 2 ^ 12 + (a mod 4 * 16 + b / 16) * 2 ^ 6 + b mod 16 * 4) / 2 ^ 2 in
   n / 2 ^ 8 = a /\ n mod 2 ^ 8 = b)%N.
Proof.
  intros Ha Hb n.
  assert (Hn : (n = a * 256 + b)%N).
  { subst n.
    pose proof (N.div_mod a 4); pose proof (N.div_mod b 16).
    change (2 ^ 12)%N with 4096%N; change (2 ^ 6)%N with 64%N; change (2 ^ 2)%N with 4%N.
    symmetry. apply (N.div_unique _ 4 _ 0); lia. }
  change (2 ^ 8)%N with 256%N.
  split.
  - symmetry. apply (N.div_unique n 256 _ b); lia.
  - symmetry. apply (N.mod_unique _ 256 a); lia.
Qed.

Lemma tail1_regroup (a : N) :
  (a < 256 -> (a / 4 * 2 ^ 6 + a mod 4 * 16) / 2 ^ 4 = a)%N.
Proof.
  intros Ha.
  pose proof (N.div_mod a 4).
  change (2 ^ 6)%N with 64%N; change (2 ^ 4)%N with 16%N.
  symmetry. apply (N.div_unique _ 16 _ 0); lia.
Qed.

(** Step 1 of the decoder leaves an encoding alone. *)
Lemma encode_no_whitespace bytes :
  filter (fun c => negb (is_ascii_whitespace c)) (encode bytes) = encode bytes.
Proof.
  induction bytes as [|a|a b|a b c rest IH] using list_ind3;
    try (pose proof (sextets_in_range _ _ _ (byte_bound a) (byte_bound a) (byte_bound a)) as Ra);
    try (pose proof (sextets_in_range _ _ _ (byte_bound a) (byte_bound b) (byte_bound b)) as Rb);
    try (pose proof (sextets_in_range _ _ _ (byte_bound a) (byte_bound b) (byte_bound c)) as Rc).
  - reflexivity.
  - cbn [encode filter].
    rewrite !char_not_whitespace by tauto. reflexivity.
  - cbn [encode filter].
    rewrite !char_not_whitespace by tauto. reflexivity.
  - cbn [encode filter].
    rewrite !char_not_whitespace by tauto. cbn [negb]. now rewrite IH.
Qed.

Lemma encode_length bytes : exists k, length (encode bytes) = (k * 4)%nat.
Proof.
  induction bytes as [|a|a b|a b c rest [k IH]] using list_ind3.
  - now exists 0%nat.
  - now exists 1%nat.
  - now exists 1%nat.
  - exists (S k). cbn [encode length]. rewrite IH. lia.
Qed.

Lemma drop_padding_cons c rest :
  c <> 61%N -> drop_padding (c :: rest) = c :: drop_padding rest.
Proof.
  intros Hc. cbn [drop_padding].
  destruct c as [|p]; [reflexivity|].
  do 6 (destruct p as [p|p|]; try reflexivity).
  congruence.
Qed.

(** Step 2 removes exactly the padding. *)
Lemma encode_drop_padding bytes :
  drop_padding (encode bytes) = map char (encode_sextets bytes).
Proof.
  induction bytes as [|a|a b|a b c rest IH] using list_ind3;
    try (pose proof (sextets_in_range _ _ _ (byte_bound a) (byte_bound a) (byte_bound a)) as Ra);
    try (pose proof (sextets_in_range _ _ _ (byte_bound a) (byte_bound b) (byte_bound b)) as Rb);
    try (pose proof (sextets_in_range _ _ _ (byte_bound a) (byte_bound b) (byte_bound c)) as Rc).
  - reflexivity.
  - cbn [encode encode_sextets map].
    rewrite !drop_padding_cons by (apply char_not_padding; tauto). reflexivity.
  - cbn [encode encode_sextets map].
    rewrite !drop_padding_cons by (apply char_not_padding; tauto). reflexivity.
  - cbn [encode encode_sextets map].
    rewrite !drop_padding_cons by (apply char_not_padding; tauto). now rewrite IH.
Qed.

Lemma encode_sextets_length bytes :
  exists k, length (encode_sextets bytes) = (k * 4)%nat
         \/ length (encode_sextets bytes) = (k * 4 + 2)%nat
         \/ length (encode_sextets bytes) = (k * 4 + 3)%nat.
Proof.
  induction bytes as [|a|a b|a b c rest [k IH]] using list_ind3.
  - exists 0%nat. now left.
  - exists 0%nat. right. now left.
  - exists 0%nat. right. now right.
  - exists (S k). cbn [encode_sextets length]. lia.
Qed.

(** Step 4: every character is in the alphabet and stands for its sextet. *)
Lemma sextets_encode bytes :
  sextets (map char (encode_sextets bytes)) = Some (encode_sextets bytes).
Proof.
  induction bytes as [|a|a b|a b c rest IH] using list_ind3;
    try (pose proof (sextets_in_range _ _ _ (byte_bound a) (byte_bound a) (byte_bound a)) as Ra);
    try (pose proof (sextets_in_range _ _ _ (byte_bound a) (byte_bound b) (byte_bound b)) as Rb);
    try (pose proof (sextets_in_range _ _ _ (byte_bound a) (byte_bound b) (byte_bound c)) as Rc).
  - reflexivity.
  - cbn [encode_sextets map sextets]. rewrite !char_value by tauto. reflexivity.
  - cbn [encode_sextets map sextets]. rewrite !char_value by tauto. reflexivity.
  - cbn [encode_sextets map sextets]. rewrite !char_value by tauto.
    now rewrite IH.
Qed.

(** Steps 5-8: the bits regroup into the bytes. *)
Lemma bytes_of_encode_sextets bytes :
  bytes_of_sextets (encode_sextets bytes) = map to_N bytes.
Proof.
  induction bytes as [|a|a b|a b c rest IH] using list_ind3.
  - reflexivity.
  - cbn [encode_sextets bytes_of_sextets map].
    now rewrite (tail1_regroup _ (byte_bound a)).
  - cbn [encode_sextets bytes_of_sextets map].
    destruct (tail2_regroup _ _ (byte_bound a) (byte_bound b)) as [E1 E2].
    cbv zeta in E1, E2. now rewrite E1, E2.
  - cbn [encode_sextets bytes_of_sextets map].
    destruct (block_regroup _ _ _ (byte_bound a) (byte_bound b) (byte_bound c))
      as (E1 & E2 & E3).
    cbv zeta in E1, E2, E3. now rewrite E1, E2, E3, IH.
Qed.

Lemma forgiving_decode_encode bytes :
  forgiving_base64_decode (encode bytes) = Some (map to_N bytes).
Proof.
  unfold forgiving_base64_decode.
  rewrite encode_no_whitespace.
  destruct (encode_length bytes) as [k Hk].
  rewrite Hk, Nat.Div0.mod_mul. cbn [Nat.eqb].
  rewrite encode_drop_padding, length_map.
  destruct (encode_sextets_length bytes) as [j [Hj|[Hj|Hj]]]; rewrite Hj.
  - rewrite Nat.Div0.mod_mul. cbn [Nat.eqb].
    now rewrite sextets_encode, <- bytes_of_encode_sextets.
  - rewrite Nat.add_comm, Nat.Div0.mod_add. cbn.
    now rewrite sextets_encode, <- bytes_of_encode_sextets.
  - rewrite Nat.add_comm, Nat.Div0.mod_add. cbn.
    now rewrite sextets_encode, <- bytes_of_encode_sextets.
Qed.

Lemma firstn_snoc {A} (d : A) : forall (l : list A) i,
  (i < length l)%nat -> firstn (S i) l = firstn i l ++ [nth i l d].
Proof.
  induction l as [|x l IH]; intros [|i] Hi; cbn in *; try lia.
  - reflexivity.
  - f_equal. apply IH. lia.
Qed.

(** The loop of lines 88-91 copies the code units. *)
Lemma charCodes_loop_copies s : forall n i,
  (i + n = length s)%nat ->
  charCodes_loop s (firstn i s ++ repeat 0%N n) i n = s.
Proof.
  induction n as [|n IH]; intros i Hlen.
  - cbn. rewrite app_nil_r. apply firstn_all2. lia.
  - cbn [charCodes_loop repeat].
    assert (Hi : length (firstn i s) = i) by (rewrite length_firstn; lia).
    rewrite firstn_app, Hi, Nat.sub_diag, firstn_O, app_nil_r, firstn_firstn, Nat.min_id.
    rewrite skipn_app, Hi, skipn_all2 by lia.
    replace (S i - i)%nat with 1%nat by lia. cbn [skipn app].
    replace (firstn i s ++ nth i s 0%N :: repeat 0%N n)
      with (firstn (S i) s ++ repeat 0%N n).
    + apply IH. lia.
    + rewrite (firstn_snoc 0%N) by lia. now rewrite <- app_assoc.
Qed.

Lemma ToUint8_to_N (b : byte) : ToUint8 (to_N b) = b.
Proof.
  unfold ToUint8. rewrite N.mod_small by apply byte_bound.
  now rewrite of_to_N.
Qed.

(** C2.  For every byte sequence, the empty one included, the decode step of
    the download handler (lines 87-92: [atob], the [charCodeAt] loop, the
    [Uint8Array]) applied to the standard base64 encoding of the sequence
    gives the sequence back, byte for byte. *)
Theorem decode_report_encode (bytes : list byte) :
  decode_report (Str (encode bytes)) = Normal bytes.
Proof.
  unfold decode_report, atob. cbn [ToString cbind].
  rewrite forgiving_decode_encode. cbn [cbind].
  pose proof (charCodes_loop_copies (map to_N bytes) (length (map to_N bytes)) 0 eq_refl)
    as Hloop.
  cbn [firstn app] in Hloop. rewrite Hloop.
  f_equal. rewrite map_map.
  rewrite <- (map_id bytes) at 2.
  apply map_ext. intros b. apply ToUint8_to_N.
Qed.

End DecodeFacts.

(* ================================================================== *)
(** * Fixed-point notation *)
(* ================================================================== *)

Module NumberFacts.
Import JS Script Contract.

Lemma uint_chars_digits u : forallb is_digit (uint_chars u) = true.
Proof. induction u; cbn [uint_chars forallb]; try rewrite IHu; reflexivity. Qed.

Lemma decimal_digits_digits n : forallb is_digit (decimal_digits n) = true.
Proof. apply uint_chars_digits. Qed.

Lemma decimal_digits_nonempty n : decimal_digits n <> [].
Proof.
  unfold decimal_digits.
  destruct (Z.to_N n) as [|p]; [discriminate|].
  cbn [N.to_uint].
  pose proof (DecimalPos.Unsigned.to_uint_nonnil p) as Hp.
  destruct (Pos.to_uint p); try congruence; discriminate.
Qed.

(** The digits [toFixed] writes are those of the integer nearest to
    [x * 10^f], the larger one on a tie: [n - 1/2 <= x * 10^f < n + 1/2]. *)
Lemma nearest_scaled_nearest m e f :
  let n := nearest_scaled m e f in
  if 0 <=? e then n = m * 2 ^ e * 10 ^ f
  else 2 ^ (- e) * (2 * n - 1) <= 2 * m * 10 ^ f < 2 ^ (- e) * (2 * n + 1).
Proof.
  unfold nearest_scaled. destruct (Z.leb_spec 0 e) as [He|He]; [reflexivity|].
  assert (HD : 0 < 2 ^ (- e)) by (apply Z.pow_pos_nonneg; lia).
  replace (2 ^ (- e + 1)) with (2 * 2 ^ (- e)) by (rewrite Z.pow_add_r by lia; lia).
  set (D := 2 ^ (- e)) in *. set (X := 2 * m * 10 ^ f).
  pose proof (Z.div_mod (X + D) (2 * D) ltac:(lia)) as E.
  pose proof (Z.mod_pos_bound (X + D) (2 * D) ltac:(lia)) as B.
  nia.
Qed.

Lemma zeros_digits k : forallb is_digit (zeros k) = true.
Proof. induction k; cbn; auto. Qed.

Lemma after_digits_point a b :
  forallb is_digit a = true -> after_digits (a ++ 46%N :: b) = 46%N :: b.
Proof.
  induction a as [|c a IH]; cbn [forallb app after_digits]; intros H.
  - reflexivity.
  - apply andb_prop in H. destruct H as [Hc Ha]. rewrite Hc. auto.
Qed.

Lemma unsigned_decimals_intro a b :
  a <> [] -> forallb is_digit a = true -> forallb is_digit b = true ->
  unsigned_decimals (length b) (a ++ 46%N :: b) = true.
Proof.
  intros Ha Da Db.
  destruct a as [|c a]; [congruence|].
  unfold unsigned_decimals. cbn [app].
  change (c :: a ++ 46%N :: b) with ((c :: a) ++ 46%N :: b).
  rewrite after_digits_point by exact Da.
  cbn [forallb] in Da. apply andb_prop in Da. destruct Da as [Dc _].
  now rewrite Dc, Db, Nat.eqb_refl.
Qed.

Lemma has_decimals_unsigned f s :
  unsigned_decimals f s = true -> has_decimals f s = true.
Proof.
  destruct s as [|c s]; [discriminate|].
  unfold unsigned_decimals at 1. intros H.
  apply andb_prop in H. destruct H as [Hc H].
  unfold has_decimals.
  destruct (N.eqb_spec c 45) as [->|Hne]; [discriminate|].
  assert (E : unsigned_decimals f (c :: s) = true)
    by (unfold unsigned_decimals; now rewrite Hc, H).
  destruct c as [|p]; [exact E|].
  do 6 (destruct p as [p|p|]; try exact E).
  congruence.
Qed.

Lemma forallb_firstn {A} (p : A -> bool) l n :
  forallb p l = true -> forallb p (firstn n l) = true.
Proof.
  revert n. induction l as [|x l IH]; intros [|n] H; cbn in *; auto.
  apply andb_prop in H. destruct H as [Hx Hl]. rewrite Hx. cbn. auto.
Qed.

Lemma forallb_skipn {A} (p : A -> bool) l n :
  forallb p l = true -> forallb p (skipn n l) = true.
Proof.
  revert n. induction l as [|x l IH]; intros [|n] H; cbn in *; auto.
  apply andb_prop in H. destruct H as [Hx Hl]. auto.
Qed.

(** Steps 11.b-c of [toFixed] write [f] decimal places. *)
Lemma fixed_digits_decimals n f :
  (0 < f)%nat -> unsigned_decimals f (fixed_digits n f) = true.
Proof.
  intros Hf. unfold fixed_digits.
  destruct f as [|f']; [lia|]. set (f := S f') in *.
  set (m := decimal_digits n).
  set (m' := if (length m <=? f)%nat then zeros (f + 1 - length m) ++ m else m).
  assert (Dm : forallb is_digit m = true) by apply decimal_digits_digits.
  assert (Dm' : forallb is_digit m' = true).
  { subst m'. destruct (length m <=? f)%nat; [|exact Dm].
    rewrite forallb_app, zeros_digits, Dm. reflexivity. }
  assert (Lm' : (f < length m')%nat).
  { subst m'. destruct (Nat.leb_spec (length m) f) as [Hle|Hgt]; [|lia].
    rewrite length_app. unfold zeros. rewrite repeat_length. lia. }
  change (lit "." ++ skipn (length m' - f) m') with (46%N :: skipn (length m' - f) m').
  assert (Lb : length (skipn (length m' - f) m') = f) by (rewrite length_skipn; lia).
  rewrite <- Lb at 1.
  apply unsigned_decimals_intro.
  - intros E. apply (f_equal (@length N)) in E. rewrite length_firstn in E.
    cbn in E. lia.
  - now apply forallb_firstn.
  - now apply forallb_skipn.
Qed.

(** In its fixed-point range, [toFixed(f)] writes exactly [f] decimals. *)
Lemma Number_toFixed_decimals x f :
  (0 < f)%nat -> fixed_range x = true -> has_decimals f (Number_toFixed x f) = true.
Proof.
  intros Hf Hx.
  destruct x as [s|s| |s m e]; try discriminate.
  - cbn [Number_toFixed]. apply has_decimals_unsigned. now apply fixed_digits_decimals.
  - cbn [Number_toFixed fixed_range] in *. apply negb_true_iff in Hx. rewrite Hx.
    destruct s.
    + change (lit "-" ++ ?t) with (45%N :: t). cbn [has_decimals].
      now apply fixed_digits_decimals.
    + cbn [app]. apply has_decimals_unsigned. now apply fixed_digits_decimals.
Qed.

End NumberFacts.

(* ================================================================== *)
(** * Running the script one statement at a time *)
(* ================================================================== *)

Module Steps.
Import JS Script Contract.
Local Open Scope script_scope.

Lemma Get_total data key v :
  Get data key = Normal v -> forall key', exists v', Get data key' = Normal v'.
Proof.
  intros H key'. destruct data; try discriminate; cbn [Get]; eauto.
  destruct (lookup (lit key') props); eauto.
Qed.

Lemma score_text_shown s : to_textContent (score_value s) = Normal (score_text s).
Proof. destruct s; reflexivity. Qed.

(** One statement at a time. *)
Lemma bind_eval {A B} (c : completion A) (a : A) (k : A -> M B) st :
  c = Normal a -> bind (eval c) k st = k a st.
Proof. intros ->. reflexivity. Qed.

Lemma bind_eval_throw {A B} (c : completion A) e (k : A -> M B) st :
  c = Throw e -> bind (eval c) k st = (Throw e, st).
Proof. intros ->. reflexivity. Qed.

Lemma bind_fixed {B} expr x f (k : jsstring -> M B) st :
  (f <= 100)%nat ->
  bind (fixed expr (Num x) f) k st = k (Number_toFixed x f) st.
Proof.
  intros Hf. unfold fixed, bind, eval, call_toFixed.
  destruct (Nat.ltb_spec 100 f); [lia|reflexivity].
Qed.

Lemma bind_set_textContent {B} e v s (k : unit -> M B) c h t tr :
  to_textContent v = Normal s ->
  bind (set_textContent e v) k (mkPage c h t tr)
  = k tt (mkPage c h (upd t e s) (SetText e s :: tr)).
Proof. intros H. unfold set_textContent, bind, eval. now rewrite H. Qed.

Lemma bind_set_text {B} e s (k : unit -> M B) c h t tr :
  bind (set_textContent e (Str s)) k (mkPage c h t tr)
  = k tt (mkPage c h (upd t e s) (SetText e s :: tr)).
Proof. reflexivity. Qed.

Lemma bind_set_currentReportPDF {B} v (k : unit -> M B) c h t tr :
  bind (set_currentReportPDF v) k (mkPage c h t tr)
  = k tt (mkPage v h t (StoreReport v :: tr)).
Proof. reflexivity. Qed.

Lemma bind_classList_remove {B} e (k : unit -> M B) c h t tr :
  bind (classList_remove e) k (mkPage c h t tr)
  = k tt (mkPage c (upd h e false) t (ClassRemove e :: tr)).
Proof. reflexivity. Qed.

Lemma bind_classList_add {B} e (k : unit -> M B) c h t tr :
  bind (classList_add e) k (mkPage c h t tr)
  = k tt (mkPage c (upd h e true) t (ClassAdd e :: tr)).
Proof. reflexivity. Qed.

Lemma bind_emit {B} ev (k : unit -> M B) c h t tr :
  bind (emit ev) k (mkPage c h t tr) = k tt (mkPage c h t (ev :: tr)).
Proof. reflexivity. Qed.

End Steps.

(* ================================================================== *)
(** * Rendering a result *)
(* ================================================================== *)

Module Rendering.
Import JS Script Contract NumberFacts Steps.
Local Open Scope script_scope.

(** C1 (amended).  For every response body that carries a result (each
    field present, with its type) whose numbers are finite and below [10^21]
    in magnitude, rendering completes and fills every display field from the
    result, none left out: the address as it is, latitude and longitude with
    exactly six decimal places, the three elevations and the elevation change
    with exactly one decimal place followed by [m], the slope classification,
    the buildability assessment and the access score as they are; and the
    result area is shown. *)
Theorem displayResults_renders (data : value) (r : AnalysisResult) (st : page) :
  carries data r ->
  in_fixed_range r = true ->
  exists st',
    displayResults data st = (Normal tt, st') /\
    rendered r st' /\
    fixed_precision r /\
    hidden st' results = false.
Proof.
  intros (Haddr & Hlat & Hlon & Hmin & Hmax & Havg & Hscore & sa & Hsa & Hchg & Hcls & Hbld)
         Hrange.
  destruct (Get_total _ _ _ Haddr "report_pdf") as [pdf Hpdf].
  destruct st as [c0 h0 t0 tr0].
  eexists. split; [|split; [|split]].
  - unfold displayResults.
    rewrite (bind_eval _ _ _ _ Hpdf), bind_set_currentReportPDF.
    rewrite (bind_eval _ _ _ _ Haddr), bind_set_text.
    rewrite (bind_eval _ _ _ _ Hlat), bind_fixed by lia.
    rewrite (bind_eval _ _ _ _ Hlon), bind_fixed by lia.
    rewrite bind_set_text.
    rewrite (bind_eval _ _ _ _ Hmin), bind_fixed, bind_set_text by lia.
    rewrite (bind_eval _ _ _ _ Hmax), bind_fixed, bind_set_text by lia.
    rewrite (bind_eval _ _ _ _ Havg), bind_fixed, bind_set_text by lia.
    rewrite (bind_eval _ _ _ _ Hsa), (bind_eval _ _ _ _ Hchg), bind_fixed,
      bind_set_text by lia.
    rewrite (bind_eval _ _ _ _ Hsa), (bind_eval _ _ _ _ Hcls),
      bind_set_text.
    rewrite (bind_eval _ _ _ _ Hsa), (bind_eval _ _ _ _ Hbld),
      bind_set_text.
    rewrite (bind_eval _ _ _ _ Hscore), (bind_set_textContent _ _ _ _ _ _ _ _ (score_text_shown _)).
    rewrite bind_classList_remove.
    reflexivity.
  - unfold rendered. cbn [text upd id_eqb]. repeat split.
  - unfold in_fixed_range in Hrange.
    repeat (apply andb_prop in Hrange; destruct Hrange as [Hrange ?]).
    repeat split; apply Number_toFixed_decimals; auto; lia.
  - reflexivity.
Qed.
Lemma body_of_carries r report_pdf : carries (body_of r report_pdf) r.
Proof.
  unfold carries, body_of. repeat (split; [reflexivity|]).
  eexists. repeat split; reflexivity.
Qed.

(** The scenario of the specification, rendered. *)
Lemma displayResults_renders_witness :
  let data := body_of salt_lake_city (Some (lit "JVBERi0=")) in
  let st' := snd (displayResults data blank) in
  carries data salt_lake_city /\
  in_fixed_range salt_lake_city = true /\
  text st' resultAddress = lit "350 S 400 E, Salt Lake City, UT" /\
  text st' resultCoords = lit "Coordinates: 40.760000, -111.880000" /\
  text st' elevMin = lit "1280.0m" /\
  text st' elevMax = lit "1310.5m" /\
  text st' elevAvg = lit "1295.2m" /\
  text st' elevChange = lit "30.5m" /\
  text st' slopeClass = lit "Moderate" /\
  text st' buildability = lit "Buildable with grading" /\
  text st' accessScore = lit "7.5".
Proof.
  intros data st'.
  assert (Hc : carries data salt_lake_city) by apply body_of_carries.
  assert (Hr : in_fixed_range salt_lake_city = true) by (vm_compute; reflexivity).
  destruct (displayResults_renders data salt_lake_city blank Hc Hr)
    as (st1 & E & (R1 & R2 & R3 & R4 & R5 & R6 & R7 & R8 & R9) & _ & _).
  subst st'. rewrite E. cbn [snd].
  rewrite R1, R2, R3, R4, R5, R6, R7, R8, R9.
  split; [exact Hc|]. split; [exact Hr|].
  vm_compute. repeat split.
Defined.

(** C1 as stated fails on the notation of large numbers: a latitude of
    [1e21] is written in exponent notation, with no decimal places. *)
Lemma huge_latitude_not_fixed :
  let r := mkResult (lit "x") (integer (10 ^ 21)) (decimal (-111880) 3)
                    (decimal 12800 1) (decimal 13105 1) (decimal 12952 1)
                    (decimal 305 1) (lit "Moderate") (lit "Buildable with grading")
                    (inl (decimal 75 1)) in
  let data := body_of r None in
  carries data r /\
  fst (displayResults data blank) = Normal tt /\
  text (snd (displayResults data blank)) resultCoords
  = lit "Coordinates: 1e+21, -111.880000" /\
  has_decimals 6 (Number_toFixed (latitude r) 6) = false.
Proof.
  intros r data. split; [apply body_of_carries|].
  vm_compute. repeat split.
Qed.

End Rendering.

(* ================================================================== *)
(** * Submitting an address *)
(* ================================================================== *)

Module Submission.
Import JS Script Contract Steps.
Local Open Scope script_scope.

Lemma message_or_shown e fallback :
  to_textContent (message_or e fallback) = Normal (description_or e fallback).
Proof.
  unfold message_or, or_else, description_or.
  destruct (message e); reflexivity.
Qed.

Lemma showError_run s st :
  showError (Str s) st = (Normal tt, error_shown s st).
Proof. destruct st. reflexivity. Qed.

(** The [catch] block always completes, with the description on display. *)
Lemma report_failure_run e st :
  report_failure e st
  = (Normal tt,
     error_shown (description_or e "Failed to analyze site. Please try again.")
                 (logged (ConsoleError e) st)).
Proof.
  destruct st as [c h t tr]. unfold report_failure, showError.
  rewrite bind_emit, (bind_set_textContent _ _ _ _ _ _ _ _ (message_or_shown _ _)).
  reflexivity.
Qed.

(** Validation: nothing but the message. *)
Lemma on_submit_blank input net st :
  trim input = [] ->
  on_submit input net st
  = (Normal tt, error_shown (lit "Please enter an address") (logged PreventDefault st)).
Proof.
  intros H. destruct st as [c h t tr]. unfold on_submit.
  rewrite bind_emit, H. reflexivity.
Qed.

(** Past validation the handler is the [try] statement, run while the
    request is in flight. *)
Lemma analyze_run input net st :
  analyze (trim input) net
    (mkPage (currentReportPDF st)
            (upd (upd (upd (hidden st) loading false) results true) error true)
            (text st)
            (ClassAdd error :: ClassAdd results :: ClassRemove loading
               :: PreventDefault :: trace st))
  = respond net (awaiting_response input st).
Proof.
  unfold analyze, fetch, awaiting_response.
  destruct net as [e|[|] [data|e]]; try reflexivity.
  cbv [respond bind emit ret eval response_json throw negb
       currentReportPDF hidden text trace].
  destruct (Get data "detail") as [detail|e]; [|reflexivity].
  cbn [cbind].
  destruct (ToString (or_else detail (Str (lit "Analysis failed")))); reflexivity.
Qed.

Lemma on_submit_pending input net st :
  trim input <> [] ->
  on_submit input net st
  = finally_hide_loading (settle (respond net (awaiting_response input st))).
Proof.
  intros H. unfold on_submit.
  destruct st as [c h t tr].
  rewrite bind_emit.
  destruct (trim input) as [|x rest] eqn:E; [congruence|].
  cbn [ToBoolean negb]. rewrite bind_classList_remove, !bind_classList_add.
  unfold try_catch_finally. rewrite <- E.
  pose proof (analyze_run input net (mkPage c h t tr)) as R. cbn [currentReportPDF hidden text trace] in R.
  rewrite R.
  destruct (respond net _) as [[[]|e] st1]; cbn [settle].
  - destruct st1. reflexivity.
  - rewrite report_failure_run. reflexivity.
Qed.


(** *** The outcome of [catch] and [finally] *)

Lemma settle_finally r :
  let r' := finally_hide_loading (settle r) in
  fst r' = Normal tt /\
  currentReportPDF (snd r') = currentReportPDF (snd r) /\
  hidden (snd r') loading = true /\
  (exists during, trace (snd r') = ClassAdd loading :: during ++ trace (snd r)) /\
  match fst r with
  | Normal _ =>
    hidden (snd r') error = hidden (snd r) error /\
    text (snd r') error = text (snd r) error
  | Throw e =>
    hidden (snd r') error = false /\
    text (snd r') error = description_or e "Failed to analyze site. Please try again."
  end.
Proof.
  destruct r as [[[]|e] [c h t tr]]; cbn [settle fst].
  - cbn. repeat split. now exists [].
  - rewrite report_failure_run. cbn. repeat split.
    now exists [ClassRemove error;
                SetText error (description_or e "Failed to analyze site. Please try again.");
                ConsoleError e].
Qed.

(** *** [displayResults] stores first *)

Lemma ro_bind {A B} (m : M A) (k : A -> M B) :
  rendering_only m -> (forall a, rendering_only (k a)) -> rendering_only (bind m k).
Proof.
  intros Hm Hk st. destruct (Hm st) as (l1 & S1 & T1).
  unfold bind. destruct (m st) as [[a|e] st1]; cbn [snd] in *.
  - destruct (Hk a st1) as (l2 & S2 & T2).
    exists (l2 ++ l1). rewrite S2, T2, S1, T1. now rewrite app_assoc.
  - now exists l1.
Qed.

Lemma ro_eval {A} (c : completion A) : rendering_only (eval c).
Proof. intros st. now exists []. Qed.

Lemma ro_fixed expr v f : rendering_only (fixed expr v f).
Proof. apply ro_eval. Qed.

Lemma ro_emit ev : rendering_only (emit ev).
Proof. intros st. now exists [ev]. Qed.

Lemma ro_classList_remove e : rendering_only (classList_remove e).
Proof. intros st. now exists [ClassRemove e]. Qed.

Lemma ro_set_textContent e v : rendering_only (set_textContent e v).
Proof.
  intros st. unfold set_textContent, bind, eval.
  destruct (to_textContent v) as [s|x]; cbn [snd].
  - now exists [SetText e s].
  - now exists [].
Qed.

Create HintDb rendering.
#[local] Hint Resolve ro_eval ro_fixed ro_emit ro_classList_remove ro_set_textContent
  : rendering.

Lemma displayResults_stores data v st :
  Get data "report_pdf" = Normal v ->
  exists later,
    currentReportPDF (snd (displayResults data st)) = v /\
    trace (snd (displayResults data st)) = later ++ StoreReport v :: trace st.
Proof.
  intros Hpdf. destruct st as [c h t tr]. unfold displayResults.
  rewrite (bind_eval _ _ _ _ Hpdf), bind_set_currentReportPDF.
  match goal with
  | |- context [snd (?m (mkPage _ _ _ _))] => assert (R : rendering_only m)
  end.
  { repeat (apply ro_bind; [auto with rendering|intro]). auto with rendering. }
  destruct (R (mkPage v h t (StoreReport v :: tr))) as (later & S & T).
  exists later. now rewrite S, T.
Qed.

Lemma displayResults_extends data st :
  exists later, trace (snd (displayResults data st)) = later ++ trace st.
Proof.
  destruct (Get data "report_pdf") as [v|e] eqn:Hpdf.
  - destruct (displayResults_stores data v st Hpdf) as (later & _ & T).
    exists (later ++ [StoreReport v]). now rewrite T, <- app_assoc.
  - exists []. unfold displayResults. now rewrite (bind_eval_throw _ _ _ _ Hpdf).
Qed.

Lemma respond_extends net st :
  exists later, trace (snd (respond net st)) = later ++ trace st.
Proof.
  destruct net as [e|[|] [data|e]]; cbn [respond snd]; try (now exists []).
  apply displayResults_extends.
Qed.

(** A response that is not [ok] never gets past line 32. *)
Lemma respond_not_ok body st :
  exists e, respond (Response false body) st = (Throw e, st).
Proof.
  destruct body as [data|e]; cbn [respond]; [|eauto].
  destruct (Get data "detail") as [detail|e]; cbn [cbind]; [|eauto].
  destruct (ToString _); cbn [cbind]; eauto.
Qed.

(** *** [trim] *)

Lemma trim_start_nil s : trim_start s = [] <-> forallb is_whitespace s = true.
Proof.
  induction s as [|c s IH]; cbn [trim_start forallb]; [tauto|].
  destruct (is_whitespace c); cbn [andb]; [exact IH|].
  split; discriminate.
Qed.

Lemma trim_start_head s c rest : trim_start s = c :: rest -> is_whitespace c = false.
Proof.
  induction s as [|x s IH]; cbn [trim_start]; [discriminate|].
  destruct (is_whitespace x) eqn:E; [exact IH|].
  intros [= -> _]. exact E.
Qed.

(** An address is empty after trimming exactly when it is empty or made of
    white space only. *)
Lemma trim_nil s : trim s = [] <-> forallb is_whitespace s = true.
Proof.
  unfold trim, trim_end. split.
  - intros H. apply (f_equal (@rev N)) in H. rewrite rev_involutive in H.
    cbn [rev] in H. apply trim_start_nil in H.
    destruct (trim_start s) as [|c rest] eqn:E; [now apply trim_start_nil|].
    apply trim_start_head in E.
    rewrite forallb_forall in H. specialize (H c).
    rewrite H in E; [discriminate|]. apply in_rev. rewrite rev_involutive. now left.
  - intros H. apply trim_start_nil in H. rewrite H. reflexivity.
Qed.


(** The submit handler catches whatever its work throws. *)
Lemma on_submit_never_throws input net st : fst (on_submit input net st) = Normal tt.
Proof.
  destruct (trim input) as [|c rest] eqn:E.
  - now rewrite (on_submit_blank _ _ _ E).
  - rewrite on_submit_pending by (rewrite E; discriminate).
    apply settle_finally.
Qed.

(** ** Validation *)

(** C4 (amended).  For every input address that is empty after trimming
    (that is, empty or made of white space only), the submit handler returns
    at once with the validation message "Please enter an address" on display
    and does nothing else: the pending state is not entered and no request
    is issued. *)
Theorem blank_address_rejected (input : jsstring) (net : fetch_outcome) (st : page) :
  trim input = [] ->
  on_submit input net st
  = (Normal tt, error_shown (lit "Please enter an address") (logged PreventDefault st)) /\
  (forall url body,
     In (Fetch url body) (trace (snd (on_submit input net st))) ->
     In (Fetch url body) (trace st)).
Proof.
  intros H. rewrite (on_submit_blank _ _ _ H). split; [reflexivity|].
  intros url body. cbn [snd error_shown logged trace].
  intros [F|[F|[F|F]]]; try discriminate. exact F.
Qed.

Lemma blank_address_rejected_witness :
  trim (lit "   ") = [] /\
  text (snd (on_submit (lit "   ") (Rejected (mkExn TypeError (lit "Failed to fetch"))) blank))
       error
  = lit "Please enter an address".
Proof.
  split; [reflexivity|].
  rewrite (proj1 (blank_address_rejected (lit "   ")
                    (Rejected (mkExn TypeError (lit "Failed to fetch"))) blank eq_refl)).
  reflexivity.
Defined.

(** C4 as stated fails on the wording of the message: for the empty address
    the page does not read "address required". *)
Lemma blank_address_message_differs :
  trim [] = [] /\
  text (snd (on_submit [] (Rejected (mkExn TypeError (lit "Failed to fetch"))) blank)) error
  <> lit "address required".
Proof. split; [reflexivity|]. vm_compute. discriminate. Qed.

(** ** The loading indicator *)

(** C5.  Once the pending state is entered, whatever the request settles to
    (a rejection, a response that is not [ok], a body that does not parse, a
    result that fails to render, a result that renders), the handler
    completes normally and its last effect is to hide the loading indicator,
    after everything that happened while and since the request was in
    flight. *)
Theorem loading_cleared_last (input : jsstring) (net : fetch_outcome) (st : page) :
  trim input <> [] ->
  let r := on_submit input net st in
  fst r = Normal tt /\
  hidden (snd r) loading = true /\
  exists during,
    trace (snd r) = ClassAdd loading :: during ++ trace (awaiting_response input st).
Proof.
  intros H r. subst r. rewrite (on_submit_pending _ _ _ H).
  destruct (settle_finally (respond net (awaiting_response input st)))
    as (C & _ & L & (during & T) & _).
  destruct (respond_extends net (awaiting_response input st)) as (later & T').
  repeat split; [exact C|exact L|].
  exists (during ++ later). now rewrite T, T', app_assoc.
Qed.

Lemma loading_cleared_last_witness :
  trim (lit "1 Main St") <> [] /\
  hidden (snd (on_submit (lit "1 Main St") (Response true (Parsed Null)) blank)) loading
  = true.
Proof.
  assert (H : trim (lit "1 Main St") <> []) by (vm_compute; discriminate).
  split; [exact H|].
  exact (proj1 (proj2 (loading_cleared_last (lit "1 Main St")
                         (Response true (Parsed Null)) blank H))).
Defined.

(** ** Transport failures *)

(** C8.  When the request is rejected (no response reached the client), the
    message on display is the description of the rejection when it has one,
    and exactly "Failed to analyze site. Please try again." when it has
    none. *)
Theorem transport_error_message (input : jsstring) (e : exn) (st : page) :
  trim input <> [] ->
  let st' := snd (on_submit input (Rejected e) st) in
  hidden st' error = false /\
  (message e <> [] -> text st' error = message e) /\
  (message e = [] -> text st' error = lit "Failed to analyze site. Please try again.").
Proof.
  intros H st'. subst st'. rewrite (on_submit_pending _ _ _ H).
  destruct (settle_finally (respond (Rejected e) (awaiting_response input st)))
    as (_ & _ & _ & _ & Herr & Htext).
  cbn [respond fst] in Herr, Htext. cbn [respond].
  split; [exact Herr|]. rewrite Htext. unfold description_or.
  split; intros Hm.
  - destruct (message e); [congruence|reflexivity].
  - now rewrite Hm.
Qed.

Lemma transport_error_message_witness :
  trim (lit "1 Main St") <> [] /\
  text (snd (on_submit (lit "1 Main St") (Rejected (mkExn TypeError [])) blank)) error
  = lit "Failed to analyze site. Please try again.".
Proof.
  assert (H : trim (lit "1 Main St") <> []) by (vm_compute; discriminate).
  split; [exact H|].
  exact (proj2 (proj2 (transport_error_message (lit "1 Main St") (mkExn TypeError [])
                         blank H)) eq_refl).
Defined.

(** ** Service failures *)

(** The fallback of line 32 at work: when the body of a response that is not
    [ok] parses, the message on display is its [detail] text when that is
    there and not empty, and exactly "Analysis failed" when [detail] is
    missing (or empty, or otherwise falsy). *)
Lemma service_error_detail (input : jsstring) (errorData : value) (st : page) :
  trim input <> [] ->
  let st' := snd (on_submit input (Response false (Parsed errorData)) st) in
  hidden st' error = false /\
  (forall d, Get errorData "detail" = Normal (Str d) -> d <> [] ->
             text st' error = d) /\
  (forall v, Get errorData "detail" = Normal v -> ToBoolean v = false ->
             text st' error = lit "Analysis failed").
Proof.
  intros H st'. subst st'. rewrite (on_submit_pending _ _ _ H).
  pose proof (settle_finally (respond (Response false (Parsed errorData))
                                      (awaiting_response input st))) as F.
  destruct (respond_not_ok (Parsed errorData) (awaiting_response input st)) as (e & R).
  rewrite R in F. cbn [fst] in F. destruct F as (_ & _ & _ & _ & Herr & Htext).
  rewrite R. split; [exact Herr|].
  cbn [respond] in R. split.
  - intros d Hd Hne. rewrite Hd in R. cbn [cbind] in R.
    unfold or_else in R.
    destruct d as [|c d]; [congruence|]. cbn [ToBoolean ToString cbind] in R.
    injection R as R. subst e. rewrite Htext. reflexivity.
  - intros v Hv Hfalse. rewrite Hv in R. cbn [cbind] in R.
    unfold or_else in R. rewrite Hfalse in R. cbn [ToString cbind] in R.
    injection R as R. subst e. rewrite Htext. reflexivity.
Qed.

(** C3, where the code falls short of it.  For a response that is not [ok]
    whose body is missing or does not parse, [response.json()] (line 31)
    rejects before the fallback of line 32 is reached, and the page shows
    the parser's message instead of "Analysis failed"; the same handler
    does show "Analysis failed" for a body that parses and has no
    [detail]. *)
Lemma unparsable_error_body_message :
  let e := mkExn SyntaxError (lit "Unexpected end of JSON input") in
  let st' := snd (on_submit (lit "1 Main St") (Response false (Unparsable e)) blank) in
  let sibling := snd (on_submit (lit "1 Main St") (Response false (Parsed (Obj []))) blank) in
  trim (lit "1 Main St") <> [] /\
  text st' error = lit "Unexpected end of JSON input" /\
  text st' error <> lit "Analysis failed" /\
  text sibling error = lit "Analysis failed".
Proof. vm_compute. repeat split; discriminate. Qed.

(** ** The report slot and rendering *)

Lemma on_submit_stores input data v st :
  trim input <> [] ->
  Get data "report_pdf" = Normal v ->
  currentReportPDF (snd (on_submit input (Response true (Parsed data)) st)) = v.
Proof.
  intros H Hpdf. rewrite (on_submit_pending _ _ _ H). cbn [respond].
  destruct (displayResults_stores data v (awaiting_response input st) Hpdf)
    as (later & S & _).
  destruct (settle_finally (displayResults data (awaiting_response input st)))
    as (_ & S' & _).
  now rewrite S'.
Qed.




End Submission.

(* ================================================================== *)
(** * Downloading the report *)
(* ================================================================== *)

Module Download.
Import JS Script Contract Steps Submission.
Local Open Scope script_scope.

(** C6.  Whenever the download handler runs with no report held (the slot
    is [null] as at page load, [undefined] as after a result without
    [report_pdf], or falsy otherwise), it completes normally with "No report
    available to download" on display, and that is all it does: nothing is
    decoded, no object URL is made, no anchor is clicked. *)
Theorem no_report_no_download (st : page) :
  ToBoolean (currentReportPDF st) = false ->
  on_download st
  = (Normal tt, error_shown (lit "No report available to download") st).
Proof.
  intros H. unfold on_download, bind, get_currentReportPDF.
  rewrite H. cbn [negb]. apply showError_run.
Qed.

Lemma no_report_no_download_witness :
  ToBoolean (currentReportPDF blank) = false /\
  trace (snd (on_download blank))
  = [ClassRemove error; SetText error (lit "No report available to download")].
Proof.
  split; [reflexivity|].
  rewrite (no_report_no_download blank eq_refl). reflexivity.
Defined.

(** C7 fails in the download handler.  After a successful analysis whose
    [report_pdf] is not base64, a click on the download button throws
    [InvalidCharacterError] out of the handler: nothing catches it, and the
    page is left as it was, with no message. *)
Theorem invalid_report_escapes_download :
  let data := body_of salt_lake_city (Some (lit "%%%")) in
  let st := snd (on_submit (lit "350 S 400 E, Salt Lake City, UT")
                           (Response true (Parsed data)) blank) in
  currentReportPDF st = Str (lit "%%%") /\
  hidden st error = true /\
  fst (on_download st) = Throw invalid_character /\
  snd (on_download st) = st.
Proof. vm_compute. repeat split. Qed.


End Download.

(* ================================================================== *)
(** * The life of the report slot *)
(* ================================================================== *)

Module Lifecycle.
Import JS Script Contract Steps Submission Download.



End Lifecycle.

(* ================================================================== *)
(** * More on decoding *)
(* ================================================================== *)

Module DecodeMore.
Import JS Script Base64 Contract Observations DecodeFacts Steps Submission.
Local Open Scope script_scope.

(** ** The copy loop *)

Lemma decode_report_of_atob pdf s :
  atob pdf = Normal s -> decode_report pdf = Normal (map ToUint8 s).
Proof.
  intros H. unfold decode_report. rewrite H. cbn [cbind].
  pose proof (charCodes_loop_copies s (length s) 0 eq_refl) as L.
  cbn [firstn app] in L. now rewrite L.
Qed.

(** X1.  The loop of lines 88-91 copies every code unit of the decoded
    string, in order and none skipped: the decode step is [atob] followed by
    the conversion of each code unit to a byte, and it throws exactly when
    [atob] does, with the same error. *)
Theorem decode_report_copies (pdf : value) :
  decode_report pdf = cbind (atob pdf) (fun s => Normal (map ToUint8 s)).
Proof.
  unfold decode_report. destruct (atob pdf) as [s|e]; cbn [cbind]; [|reflexivity].
  pose proof (charCodes_loop_copies s (length s) 0 eq_refl) as L.
  cbn [firstn app] in L. now rewrite L.
Qed.

(** ** What the decoder accepts *)

Lemma filter_idempotent {A} (p : A -> bool) l : filter p (filter p l) = filter p l.
Proof.
  induction l as [|x l IH]; cbn [filter]; [reflexivity|].
  destruct (p x) eqn:E; cbn [filter]; [rewrite E|]; now rewrite IH.
Qed.

Lemma forgiving_decode_whitespace s :
  forgiving_base64_decode s
  = forgiving_base64_decode (filter (fun c => negb (is_ascii_whitespace c)) s).
Proof. unfold forgiving_base64_decode. now rewrite filter_idempotent. Qed.

Lemma decode_string s bytes :
  forgiving_base64_decode s = Some (map to_N bytes) ->
  decode_report (Str s) = Normal bytes.
Proof.
  intros H. rewrite (decode_report_of_atob _ (map to_N bytes)).
  - f_equal. rewrite map_map. rewrite <- (map_id bytes) at 2.
    apply map_ext. intros b. apply ToUint8_to_N.
  - unfold atob. cbn [ToString cbind]. now rewrite H.
Qed.

(** X2.  White space in the payload does not matter: a payload that is a
    standard base64 encoding once its tabs, line feeds, form feeds, carriage
    returns and spaces are taken out (a line-wrapped encoding, say) decodes
    to the encoded bytes. *)
Theorem decode_ignores_whitespace (payload : jsstring) (bytes : list byte) :
  filter not_whitespace payload = encode bytes ->
  decode_report (Str payload) = Normal bytes.
Proof.
  intros H. apply decode_string.
  rewrite forgiving_decode_whitespace.
  unfold not_whitespace in H. rewrite H. apply forgiving_decode_encode.
Qed.

Lemma decode_ignores_whitespace_witness :
  filter not_whitespace (lit "aGVs bG8=") = encode ["h"; "e"; "l"; "l"; "o"]%byte /\
  decode_report (Str (lit "aGVs bG8=")) = Normal ["h"; "e"; "l"; "l"; "o"]%byte.
Proof.
  assert (H : filter not_whitespace (lit "aGVs bG8=")
              = encode ["h"; "e"; "l"; "l"; "o"]%byte) by reflexivity.
  split; [exact H|].
  exact (decode_ignores_whitespace _ _ H).
Defined.

Lemma encode_sextets_range bytes :
  Forall (fun n => (n < 64)%N) (encode_sextets bytes).
Proof.
  induction bytes as [|a|a b|a b c rest IH] using list_ind3;
    try (pose proof (sextets_in_range _ _ _ (byte_bound a) (byte_bound a) (byte_bound a)) as Ra);
    try (pose proof (sextets_in_range _ _ _ (byte_bound a) (byte_bound b) (byte_bound b)) as Rb);
    try (pose proof (sextets_in_range _ _ _ (byte_bound a) (byte_bound b) (byte_bound c)) as Rc);
    cbn [encode_sextets]; repeat constructor; tauto.
Qed.

Lemma drop_padding_none l :
  Forall (fun c => c <> 61%N) l -> drop_padding l = l.
Proof.
  induction 1 as [|c l Hc _ IH]; [reflexivity|].
  now rewrite drop_padding_cons, IH.
Qed.

Lemma unpadded_decodes bytes :
  forgiving_base64_decode (map char (encode_sextets bytes)) = Some (map to_N bytes).
Proof.
  pose proof (encode_sextets_range bytes) as R.
  unfold forgiving_base64_decode.
  assert (F : filter (fun c => negb (is_ascii_whitespace c)) (map char (encode_sextets bytes))
              = map char (encode_sextets bytes)).
  { induction R as [|n l Hn _ IH]; [reflexivity|].
    cbn [map filter]. rewrite (char_not_whitespace _ Hn). cbn [negb]. now rewrite IH. }
  rewrite F.
  assert (P : drop_padding (map char (encode_sextets bytes)) = map char (encode_sextets bytes)).
  { apply drop_padding_none. apply Forall_map.
    eapply Forall_impl; [|exact R]. intros n Hn. now apply char_not_padding. }
  rewrite P, Tauto.if_same, length_map.
  destruct (encode_sextets_length bytes) as [j [Hj|[Hj|Hj]]]; rewrite Hj.
  - rewrite Nat.Div0.mod_mul. cbn [Nat.eqb].
    now rewrite sextets_encode, <- bytes_of_encode_sextets.
  - rewrite Nat.add_comm, Nat.Div0.mod_add. cbn.
    now rewrite sextets_encode, <- bytes_of_encode_sextets.
  - rewrite Nat.add_comm, Nat.Div0.mod_add. cbn.
    now rewrite sextets_encode, <- bytes_of_encode_sextets.
Qed.

(** X3.  Padding is optional: the base64 encoding of any byte sequence with
    its trailing [=] signs left out decodes to the sequence as well. *)
Theorem decode_unpadded (bytes : list byte) :
  decode_report (Str (map char (encode_sextets bytes))) = Normal bytes.
Proof. apply decode_string, unpadded_decodes. Qed.

End DecodeMore.

(* ================================================================== *)
(** * More on downloading *)
(* ================================================================== *)

Module DownloadMore.
Import JS Script Base64 Contract Observations DecodeFacts Steps Submission DecodeMore.
Local Open Scope script_scope.

(** ** Payloads that do not decode *)

Lemma drop_padding_pad rest :
  drop_padding (61%N :: rest)
  = match rest with
    | [] => []
    | [y] => if (y =? 61)%N then [] else 61%N :: drop_padding [y]
    | _ => 61%N :: drop_padding rest
    end.
Proof.
  destruct rest as [|y rest]; [reflexivity|].
  destruct (N.eqb_spec y 61) as [->|Hy].
  - destruct rest; reflexivity.
  - assert (E : drop_padding (61%N :: y :: rest) = 61%N :: drop_padding (y :: rest)).
    { cbn [drop_padding].
      destruct y as [|p]; [reflexivity|].
      do 6 (destruct p as [p|p|]; try reflexivity).
      congruence. }
    rewrite E. destruct rest; reflexivity.
Qed.

Lemma drop_padding_In c l : c <> 61%N -> In c l -> In c (drop_padding l).
Proof.
  intros Hc. induction l as [|x rest IH]; intros Hin; [contradiction|].
  destruct (N.eq_dec x 61) as [->|Hx].
  - destruct Hin as [E|Hin]; [congruence|].
    rewrite drop_padding_pad.
    destruct rest as [|y [|z r]]; [contradiction| |].
    + destruct (N.eqb_spec y 61) as [->|Hy].
      * destruct Hin as [E|[]]. congruence.
      * right. now apply IH.
    + right. now apply IH.
  - rewrite drop_padding_cons by exact Hx.
    destruct Hin as [E|Hin]; [now left|right; now apply IH].
Qed.

Lemma sextets_invalid c l : In c l -> base64_value c = None -> sextets l = None.
Proof.
  intros Hin Hc. induction l as [|x rest IH]; [contradiction|].
  cbn [sextets]. destruct Hin as [->|Hin].
  - now rewrite Hc.
  - rewrite (IH Hin). now destruct (base64_value x).
Qed.

Lemma forgiving_decode_invalid c s :
  In c s -> not_whitespace c = true -> c <> 61%N -> base64_value c = None ->
  forgiving_base64_decode s = None.
Proof.
  intros Hin Hws Hpad Hval. unfold forgiving_base64_decode.
  set (l := filter _ s).
  assert (Hl : In c l) by (apply filter_In; split; assumption).
  set (l' := if (length l mod 4 =? 0)%nat then drop_padding l else l).
  assert (Hl' : In c l').
  { subst l'. destruct (length l mod 4 =? 0)%nat; [now apply drop_padding_In|exact Hl]. }
  destruct (length l' mod 4 =? 1)%nat; [reflexivity|].
  now rewrite (sextets_invalid c l' Hl' Hval).
Qed.

(** X4.  When the stored payload is a string with a character that is
    neither in the base64 alphabet, nor [=], nor ASCII white space, a click
    on the download button throws [InvalidCharacterError] and does nothing
    else: no object URL is made, no anchor is clicked, and the page, error
    box included, stays as it was. *)
Theorem undecodable_payload_no_file (st : page) (payload : jsstring) (c : N) :
  currentReportPDF st = Str payload ->
  In c payload ->
  not_whitespace c = true -> c <> 61%N -> base64_value c = None ->
  on_download st = (Throw invalid_character, st).
Proof.
  intros Hst Hin Hws Hpad Hval.
  destruct st as [pdf h t tr]. cbn [currentReportPDF] in Hst. subst pdf.
  unfold on_download, bind, get_currentReportPDF. cbn [currentReportPDF].
  destruct payload as [|x rest]; [contradiction|]. cbn [ToBoolean negb].
  unfold eval, decode_report, atob. cbn [ToString cbind].
  now rewrite (forgiving_decode_invalid c (x :: rest) Hin Hws Hpad Hval).
Qed.

Lemma undecodable_payload_no_file_witness :
  let st := mkPage (Str (lit "JVBE-Ri0")) (fun _ => true) (fun _ => []) [] in
  currentReportPDF st = Str (lit "JVBE-Ri0") /\
  In 45%N (lit "JVBE-Ri0") /\
  not_whitespace 45 = true /\ 45%N <> 61%N /\ base64_value 45 = None /\
  on_download st = (Throw invalid_character, st).
Proof.
  intros st.
  assert (Hin : In 45%N (lit "JVBE-Ri0")) by (cbn; tauto).
  assert (Hpad : 45%N <> 61%N) by discriminate.
  repeat (split; [first [reflexivity | exact Hin | exact Hpad]|]).
  exact (undecodable_payload_no_file st _ 45%N eq_refl Hin eq_refl Hpad eq_refl).
Defined.

(** ** From an analysis to the file *)

Lemma encode_nonempty bytes : bytes <> [] -> encode bytes <> [].
Proof. destruct bytes as [|a [|b [|c rest]]]; [congruence| | |]; discriminate. Qed.

Lemma on_download_run st payload bytes :
  currentReportPDF st = Str payload -> payload <> [] ->
  decode_report (Str payload) = Normal bytes ->
  on_download st
  = (Normal tt, mkPage (currentReportPDF st) (hidden st) (text st)
                       (download_effects bytes ++ trace st)).
Proof.
  intros Hst Hne Hdec. destruct st as [pdf h t tr].
  cbn [currentReportPDF hidden text trace] in *. subst pdf.
  unfold on_download, bind, get_currentReportPDF. cbn [currentReportPDF].
  destruct payload as [|x rest]; [congruence|]. cbn [ToBoolean negb].
  unfold eval. rewrite Hdec. reflexivity.
Qed.

(** X5.  After an [ok] response whose body carries the base64 encoding of a
    non-empty byte sequence as [report_pdf] (whether or not the rest of the
    body rendered), a click on the download button completes and does
    exactly this: it offers those bytes as an [application/pdf] blob under
    the file name [site-analysis-report.pdf], then revokes the object URL
    and removes the anchor; the stored report and the page elements are left
    as they were, so the download can be repeated. *)
Theorem download_after_analysis (input : jsstring) (data : value)
    (bytes : list byte) (st : page) :
  trim input <> [] ->
  bytes <> [] ->
  Get data "report_pdf" = Normal (Str (encode bytes)) ->
  let st1 := snd (on_submit input (Response true (Parsed data)) st) in
  on_download st1
  = (Normal tt, mkPage (currentReportPDF st1) (hidden st1) (text st1)
                       (download_effects bytes ++ trace st1)).
Proof.
  intros H Hne Hpdf st1.
  apply (on_download_run st1 (encode bytes)).
  - apply (on_submit_stores _ _ _ _ H Hpdf).
  - now apply encode_nonempty.
  - apply decode_string, forgiving_decode_encode.
Qed.

Lemma download_after_analysis_witness :
  let data := body_of salt_lake_city (Some (encode ["%"; "P"; "D"; "F"]%byte)) in
  let st1 := snd (on_submit (lit "1 Main St") (Response true (Parsed data)) blank) in
  trim (lit "1 Main St") <> [] /\
  ["%"; "P"; "D"; "F"]%byte <> [] /\
  Get data "report_pdf" = Normal (Str (encode ["%"; "P"; "D"; "F"]%byte)) /\
  trace (snd (on_download st1))
  = download_effects ["%"; "P"; "D"; "F"]%byte ++ trace st1.
Proof.
  intros data st1.
  assert (H : trim (lit "1 Main St") <> []) by (vm_compute; discriminate).
  assert (Hne : ["%"; "P"; "D"; "F"]%byte <> []) by discriminate.
  split; [exact H|]. split; [exact Hne|]. split; [reflexivity|].
  subst st1.
  now rewrite (download_after_analysis (lit "1 Main St") data _ blank H Hne eq_refl).
Defined.

(** X6.  After an [ok] response whose body has no [report_pdf], or a falsy
    one ([null], the empty string), a click on the download button only
    shows "No report available to download", whatever report was stored
    before that response: the report of an earlier analysis can no longer be
    downloaded. *)
Theorem no_download_after_bare_result (input : jsstring) (data v : value) (st : page) :
  trim input <> [] ->
  Get data "report_pdf" = Normal v ->
  ToBoolean v = false ->
  let st1 := snd (on_submit input (Response true (Parsed data)) st) in
  on_download st1
  = (Normal tt, error_shown (lit "No report available to download") st1).
Proof.
  intros H Hpdf Hv st1.
  pose proof (on_submit_stores _ _ _ st H Hpdf) as S. fold st1 in S.
  unfold on_download, bind, get_currentReportPDF.
  rewrite S, Hv. cbn [negb]. apply showError_run.
Qed.

Lemma no_download_after_bare_result_witness :
  let old := mkPage (Str (lit "T0xE")) (fun _ => true) (fun _ => []) [] in
  let data := body_of salt_lake_city None in
  let st1 := snd (on_submit (lit "1 Main St") (Response true (Parsed data)) old) in
  trim (lit "1 Main St") <> [] /\
  Get data "report_pdf" = Normal Undefined /\
  ToBoolean Undefined = false /\
  text (snd (on_download st1)) error = lit "No report available to download".
Proof.
  intros old data st1.
  assert (H : trim (lit "1 Main St") <> []) by (vm_compute; discriminate).
  split; [exact H|]. split; [reflexivity|]. split; [reflexivity|].
  subst st1.
  now rewrite (no_download_after_bare_result (lit "1 Main St") data Undefined old
                 H eq_refl eq_refl).
Defined.

End DownloadMore.

(* ================================================================== *)
(** * More on submitting *)
(* ================================================================== *)

Module SubmitMore.
Import JS Script Contract Observations Phases Steps Rendering Submission.
Local Open Scope script_scope.

(** ** The two phases and the uninterrupted run *)

Lemma submit_settle_run net st :
  submit_settle net st = finally_hide_loading (settle (respond net st)).
Proof.
  assert (R : resume net st = respond net st).
  { destruct net as [e|[|] [data|e]]; try reflexivity.
    cbv [resume respond bind ret eval response_json throw negb].
    destruct (Get data "detail") as [detail|e]; [|reflexivity].
    cbn [cbind].
    destruct (ToString (or_else detail (Str (lit "Analysis failed")))); reflexivity. }
  unfold submit_settle, try_catch_finally. rewrite R.
  destruct (respond net st) as [[[]|e] st1]; cbn [settle].
  - destruct st1. reflexivity.
  - rewrite report_failure_run. reflexivity.
Qed.

Lemma submit_begin_pending input st :
  trim input <> [] ->
  submit_begin input st = (Normal true, awaiting_response input st).
Proof.
  intros H. destruct st as [c h t tr]. unfold submit_begin.
  rewrite bind_emit.
  destruct (trim input) as [|x rest] eqn:E; [congruence|].
  cbn [ToBoolean negb].
  rewrite bind_classList_remove, !bind_classList_add, bind_emit.
  unfold awaiting_response. now rewrite E.
Qed.

(** With nothing in between, the two phases are [on_submit]. *)
Lemma on_submit_phases input net st :
  trim input <> [] ->
  on_submit input net st = submit_settle net (snd (submit_begin input st)).
Proof.
  intros H. rewrite (submit_begin_pending _ _ H), submit_settle_run.
  now apply on_submit_pending.
Qed.

(** ** [catch] and [finally], case by case *)

Lemma settle_finally_normal st :
  finally_hide_loading (settle (Normal tt, st))
  = (Normal tt, mkPage (currentReportPDF st) (upd (hidden st) loading true) (text st)
                       (ClassAdd loading :: trace st)).
Proof. reflexivity. Qed.

Lemma settle_finally_throw e st :
  let shown := description_or e "Failed to analyze site. Please try again." in
  finally_hide_loading (settle (Throw e, st))
  = (Normal tt,
     mkPage (currentReportPDF st)
            (upd (upd (hidden st) error false) loading true)
            (upd (text st) error shown)
            (ClassAdd loading :: ClassRemove error :: SetText error shown
               :: ConsoleError e :: trace st)).
Proof. cbn [settle]. rewrite report_failure_run. reflexivity. Qed.

(** ** A result that renders *)

Lemma displayResults_run data r st :
  carries data r ->
  exists st',
    displayResults data st = (Normal tt, st') /\
    rendered r st' /\
    hidden st' = upd (hidden st) results false /\
    text st' error = text st error.
Proof.
  intros (Haddr & Hlat & Hlon & Hmin & Hmax & Havg & Hscore & sa & Hsa & Hchg & Hcls & Hbld).
  destruct (Get_total _ _ _ Haddr "report_pdf") as [pdf Hpdf].
  destruct st as [c0 h0 t0 tr0].
  eexists. split; [|split; [|split]].
  - unfold displayResults.
    rewrite (bind_eval _ _ _ _ Hpdf), bind_set_currentReportPDF.
    rewrite (bind_eval _ _ _ _ Haddr), bind_set_text.
    rewrite (bind_eval _ _ _ _ Hlat), bind_fixed by lia.
    rewrite (bind_eval _ _ _ _ Hlon), bind_fixed by lia.
    rewrite bind_set_text.
    rewrite (bind_eval _ _ _ _ Hmin), bind_fixed, bind_set_text by lia.
    rewrite (bind_eval _ _ _ _ Hmax), bind_fixed, bind_set_text by lia.
    rewrite (bind_eval _ _ _ _ Havg), bind_fixed, bind_set_text by lia.
    rewrite (bind_eval _ _ _ _ Hsa), (bind_eval _ _ _ _ Hchg), bind_fixed,
      bind_set_text by lia.
    rewrite (bind_eval _ _ _ _ Hsa), (bind_eval _ _ _ _ Hcls), bind_set_text.
    rewrite (bind_eval _ _ _ _ Hsa), (bind_eval _ _ _ _ Hbld), bind_set_text.
    rewrite (bind_eval _ _ _ _ Hscore),
      (bind_set_textContent _ _ _ _ _ _ _ _ (score_text_shown _)).
    rewrite bind_classList_remove.
    reflexivity.
  - unfold rendered. cbn [text upd id_eqb]. repeat split.
  - reflexivity.
  - reflexivity.
Qed.

(** X7.  Whatever the page is when an [ok] response whose body carries a
    result arrives (other handlers may have run since the submission), the
    rest of the submit handler completes and leaves every display field
    filled from the result (the numbers of any magnitude, infinite ones
    included), the result area shown and the loading indicator hidden; the
    error box and its text are left exactly as they were at that moment. *)
Theorem analysis_shown (data : value) (r : AnalysisResult) (st : page) :
  carries data r ->
  let out := submit_settle (Response true (Parsed data)) st in
  fst out = Normal tt /\
  rendered r (snd out) /\
  hidden (snd out) results = false /\
  hidden (snd out) loading = true /\
  hidden (snd out) error = hidden st error /\
  text (snd out) error = text st error.
Proof.
  intros Hc out. subst out. rewrite submit_settle_run. cbn [respond].
  destruct (displayResults_run data r st Hc) as (st' & E & R & Hh & Ht).
  rewrite E, settle_finally_normal. cbn [fst snd hidden text]. rewrite Hh.
  split; [reflexivity|]. split; [exact R|]. repeat split. exact Ht.
Qed.

(** A submission, then a blank one while the request is in flight, then the
    response: the result area and the error box are both shown. *)
Lemma analysis_shown_witness :
  let r := mkResult (lit "x") (integer (10 ^ 21)) (S754_infinity true)
                    (decimal 12800 1) (decimal 13105 1) (decimal 12952 1)
                    (decimal 305 1) (lit "Moderate") (lit "Buildable")
                    (inr (lit "7/10")) in
  let pending := snd (submit_begin (lit "1 Main St") blank) in
  let meanwhile := snd (submit_begin (lit "   ") pending) in
  let out := submit_settle (Response true (Parsed (body_of r None))) meanwhile in
  carries (body_of r None) r /\
  text (snd out) resultCoords = lit "Coordinates: 1e+21, -Infinity" /\
  text (snd out) accessScore = lit "7/10" /\
  hidden (snd out) results = false /\
  hidden (snd out) error = false.
Proof.
  intros r pending meanwhile out.
  assert (Hc : carries (body_of r None) r) by apply body_of_carries.
  destruct (analysis_shown (body_of r None) r meanwhile Hc)
    as (_ & (_ & Rc & _ & _ & _ & _ & _ & _ & Rs) & Hr & _ & He & _).
  split; [exact Hc|].
  subst out. rewrite Rc, Rs, Hr, He. vm_compute. repeat split.
Defined.

(** ** What rendering does to the class lists *)

Lemma kh_bind {A B} (m : M A) (k : A -> M B) :
  keeps_hidden m -> (forall a, keeps_hidden (k a)) -> keeps_hidden (bind m k).
Proof.
  intros Hm Hk st. pose proof (Hm st) as E. unfold bind.
  destruct (m st) as [[a|e] st1]; cbn [snd] in *; [|exact E].
  now rewrite Hk.
Qed.

Lemma kh_eval {A} (c : completion A) : keeps_hidden (eval c).
Proof. intros st. reflexivity. Qed.

Lemma kh_fixed expr v f : keeps_hidden (fixed expr v f).
Proof. apply kh_eval. Qed.

Lemma kh_set_currentReportPDF v : keeps_hidden (set_currentReportPDF v).
Proof. intros st. reflexivity. Qed.

Lemma kh_set_textContent e v : keeps_hidden (set_textContent e v).
Proof.
  intros st. unfold set_textContent, bind, eval.
  destruct (to_textContent v); reflexivity.
Qed.

Lemma sr_bind {A B} (m : M A) (k : A -> M B) :
  keeps_hidden m -> (forall a, shows_results_at_end (k a)) ->
  shows_results_at_end (bind m k).
Proof.
  intros Hm Hk st. pose proof (Hm st) as E. unfold bind.
  destruct (m st) as [[a|e] st1]; cbn [fst snd] in *; [|exact E].
  pose proof (Hk a st1) as F. rewrite E in F. exact F.
Qed.

Lemma sr_last ev : shows_results_at_end (bind (classList_remove results) (fun _ => emit ev)).
Proof. intros st. reflexivity. Qed.

Create HintDb class_lists.
#[local] Hint Resolve kh_eval kh_fixed kh_set_currentReportPDF kh_set_textContent
  : class_lists.

Lemma displayResults_shows_at_end data : shows_results_at_end (displayResults data).
Proof.
  unfold displayResults.
  repeat (apply sr_bind; [solve [auto with class_lists]|intro]).
  apply sr_last.
Qed.

Lemma respond_hidden net st :
  match fst (respond net st) with
  | Normal _ => hidden (snd (respond net st)) = upd (hidden st) results false
  | Throw _ => hidden (snd (respond net st)) = hidden st
  end.
Proof.
  destruct net as [e|[|] [data|e]]; try reflexivity.
  - apply displayResults_shows_at_end.
  - destruct (respond_not_ok (Parsed data) st) as (e & R). now rewrite R.
Qed.

(** X8.  When the request settles, however it does and whether or not
    rendering throws, the rest of the submit handler hides the loading
    indicator and either shows the result area and leaves the error box as
    it was, or shows the error box and leaves the result area as it was.
    So exactly one of the two is shown afterwards if both were still hidden,
    as the submission left them; if another handler has shown one of them in
    the meantime, both may be. *)
Theorem results_or_error (net : fetch_outcome) (st : page) :
  let st' := snd (submit_settle net st) in
  hidden st' loading = true /\
  ((hidden st' results = false /\ hidden st' error = hidden st error) \/
   (hidden st' error = false /\ hidden st' results = hidden st results)) /\
  (hidden st results = true -> hidden st error = true ->
   hidden st' results = negb (hidden st' error)).
Proof.
  intros st'. subst st'. rewrite submit_settle_run.
  pose proof (respond_hidden net st) as Hh.
  destruct (respond net st) as [[[]|e] st1]; cbn [fst snd] in Hh.
  - rewrite settle_finally_normal. cbn [snd hidden]. rewrite Hh.
    split; [reflexivity|]. split; [left; split; reflexivity|].
    intros _ He. cbn [upd id_eqb]. now rewrite He.
  - rewrite settle_finally_throw. cbn [snd hidden]. rewrite Hh.
    split; [reflexivity|]. split; [right; split; reflexivity|].
    intros Hr _. cbn [upd id_eqb]. now rewrite Hr.
Qed.

Lemma results_or_error_witness :
  let pending := snd (submit_begin (lit "1 Main St") blank) in
  let st' := snd (submit_settle (Response true (Parsed (Obj []))) pending) in
  hidden pending results = true /\ hidden pending error = true /\
  hidden st' results = true /\ hidden st' error = false.
Proof.
  intros pending st'.
  assert (Hr : hidden pending results = true) by reflexivity.
  assert (He : hidden pending error = true) by reflexivity.
  destruct (results_or_error (Response true (Parsed (Obj []))) pending) as (_ & _ & X).
  split; [exact Hr|]. split; [exact He|].
  subst st'. rewrite (X Hr He). vm_compute. split; reflexivity.
Defined.

(** ** Attempts that fail before rendering *)



(** The early failures of the uninterrupted run. *)
Lemma respond_early net st :
  reaches_rendering net = false -> exists e, respond net st = (Throw e, st).
Proof.
  intros Hr. destruct net as [e|[|] body].
  - cbn [respond]. eauto.
  - destruct body as [data|e]; cbn [respond]; [|eauto].
    destruct data; try discriminate; unfold displayResults;
      erewrite bind_eval_throw by reflexivity; eauto.
  - apply respond_not_ok.
Qed.

(** ** Descriptions that are not text *)



End SubmitMore.

(* ================================================================== *)
(** * The request *)
(* ================================================================== *)

Module RequestFacts.
Import JS Script Contract Observations Phases Steps Submission SubmitMore.
Local Open Scope script_scope.

Lemma nr_bind {A B} (m : M A) (k : A -> M B) :
  no_request m -> (forall a, no_request (k a)) -> no_request (bind m k).
Proof.
  intros Hm Hk st. pose proof (Hm st) as E. unfold bind.
  destruct (m st) as [[a|e] st1]; cbn [snd] in *; [|exact E].
  now rewrite Hk.
Qed.

Lemma nr_eval {A} (c : completion A) : no_request (eval c).
Proof. intros st. reflexivity. Qed.

Lemma nr_fixed expr v f : no_request (fixed expr v f).
Proof. apply nr_eval. Qed.

Lemma nr_emit ev : is_fetch ev = false -> no_request (emit ev).
Proof. intros H st. unfold requests. cbn. now rewrite H. Qed.

Lemma nr_set_currentReportPDF v : no_request (set_currentReportPDF v).
Proof. intros st. reflexivity. Qed.

Lemma nr_classList_remove e : no_request (classList_remove e).
Proof. intros st. reflexivity. Qed.

Lemma nr_set_textContent e v : no_request (set_textContent e v).
Proof.
  intros st. unfold set_textContent, bind, eval.
  destruct (to_textContent v); reflexivity.
Qed.

Create HintDb requests.
#[local] Hint Resolve nr_eval nr_fixed nr_set_currentReportPDF nr_classList_remove
  nr_set_textContent : requests.

Lemma displayResults_no_request data : no_request (displayResults data).
Proof.
  unfold displayResults.
  repeat (apply nr_bind; [solve [auto with requests]|intro]).
  now apply nr_emit.
Qed.

Lemma respond_no_request net st : requests (snd (respond net st)) = requests st.
Proof.
  destruct net as [e|[|] [data|e]]; try reflexivity.
  apply displayResults_no_request.
Qed.

(** X11.  A submission issues one request, to [API_URL/analyze] with the
    trimmed address as its payload, when the address has a character that is
    not white space, and none when it is empty or white space only; neither
    rendering nor error handling issues any. *)
Theorem one_request_per_attempt (input : jsstring) (net : fetch_outcome) (st : page) :
  requests (snd (on_submit input net st))
  = (if forallb is_whitespace input then [] else [analyze_request input])
    ++ requests st.
Proof.
  destruct (forallb is_whitespace input) eqn:W.
  - apply trim_nil in W. now rewrite (on_submit_blank _ _ _ W).
  - assert (H : trim input <> []).
    { intros E. apply trim_nil in E. congruence. }
    rewrite (on_submit_pending _ _ _ H).
    pose proof (respond_no_request net (awaiting_response input st)) as R.
    destruct (respond net (awaiting_response input st)) as [[[]|e] st1]; cbn [snd] in R.
    + rewrite settle_finally_normal. unfold requests in *. cbn [snd trace filter is_fetch].
      rewrite R. reflexivity.
    + rewrite settle_finally_throw. unfold requests in *. cbn [snd trace filter is_fetch].
      rewrite R. reflexivity.
Qed.

(** ** The address sent *)

Lemma trim_start_split s :
  exists pre, s = pre ++ trim_start s /\ forallb is_whitespace pre = true.
Proof.
  induction s as [|c s (pre & E & W)]; [now exists []|].
  cbn [trim_start]. destruct (is_whitespace c) eqn:Hc.
  - exists (c :: pre). cbn [app forallb]. rewrite Hc, W. split; [now f_equal|reflexivity].
  - now exists [].
Qed.

Lemma forallb_rev {A} (p : A -> bool) l : forallb p (rev l) = forallb p l.
Proof.
  induction l as [|x l IH]; [reflexivity|].
  cbn [rev forallb]. rewrite forallb_app, IH. cbn [forallb].
  rewrite andb_true_r. apply andb_comm.
Qed.

Lemma trim_end_split s :
  exists post, s = trim_end s ++ post /\ forallb is_whitespace post = true.
Proof.
  unfold trim_end. destruct (trim_start_split (rev s)) as (pre & E & W).
  exists (rev pre). split.
  - rewrite <- rev_app_distr, <- E. now rewrite rev_involutive.
  - now rewrite forallb_rev.
Qed.

Lemma trim_end_last s c : is_whitespace (last (trim_end s) c) = false \/ trim_end s = [].
Proof.
  unfold trim_end. destruct (trim_start (rev s)) as [|x rest] eqn:E; [now right|].
  left. apply trim_start_head in E.
  cbn [rev]. now rewrite last_last.
Qed.

Lemma trim_ends s :
  match trim s with
  | [] => True
  | c :: rest => is_whitespace c = false /\ is_whitespace (last (c :: rest) 0%N) = false
  end.
Proof.
  destruct (trim_end_split (trim_start s)) as (post & E' & W').
  fold (trim s) in E'.
  destruct (trim s) as [|c rest] eqn:T; [exact I|]. split.
  - destruct (trim_start s) as [|x u] eqn:U.
    + discriminate E'.
    + injection E' as -> _. now apply trim_start_head in U.
  - destruct (trim_end_last (trim_start s) 0%N) as [L|L].
    + fold (trim s) in L. now rewrite T in L.
    + fold (trim s) in L. congruence.
Qed.

Lemma requests_pending input net st :
  trim input <> [] ->
  requests (snd (on_submit input net st)) = analyze_request input :: requests st.
Proof.
  intros H. rewrite (on_submit_pending _ _ _ H).
  pose proof (respond_no_request net (awaiting_response input st)) as R.
  destruct (respond net (awaiting_response input st)) as [[[]|e] st1]; cbn [snd] in R.
  - rewrite settle_finally_normal. unfold requests in *. cbn [snd trace filter is_fetch].
    rewrite R. reflexivity.
  - rewrite settle_finally_throw. unfold requests in *. cbn [snd trace filter is_fetch].
    rewrite R. reflexivity.
Qed.

(** X12.  The request a submission issues carries the input with white
    space taken off both ends and nothing else: whenever the input has a
    character that is not white space, the one request issued is a POST to
    [API_URL/analyze] whose payload is [{address}] for an [address] that is
    not empty, neither begins nor ends with a white space character, and
    sits in the input between two runs of white space. *)
Theorem address_trimmed (input : jsstring) (net : fetch_outcome) (st : page) :
  forallb is_whitespace input = false ->
  exists address pre post,
    requests (snd (on_submit input net st))
    = Fetch (API_URL ++ lit "/analyze") (Obj [(lit "address", Str address)])
      :: requests st /\
    input = pre ++ address ++ post /\
    forallb is_whitespace pre = true /\
    forallb is_whitespace post = true /\
    address <> [] /\
    is_whitespace (first_char address) = false /\
    is_whitespace (last_char address) = false.
Proof.
  intros W.
  assert (H : trim input <> []).
  { intros E. apply trim_nil in E. congruence. }
  destruct (trim_start_split input) as (pre & E & Wpre).
  destruct (trim_end_split (trim_start input)) as (post & E' & Wpost).
  fold (trim input) in E'.
  exists (trim input), pre, post.
  split; [now apply requests_pending|].
  split; [now rewrite <- E'|].
  split; [exact Wpre|]. split; [exact Wpost|]. split; [exact H|].
  pose proof (trim_ends input) as T.
  unfold first_char, last_char.
  destruct (trim input) as [|c rest]; [congruence|]. exact T.
Qed.

Lemma address_trimmed_witness :
  forallb is_whitespace (lit "  1 Main St ") = false /\
  requests (snd (on_submit (lit "  1 Main St ")
                   (Rejected (mkExn TypeError (lit "Failed to fetch"))) blank))
  = [Fetch (API_URL ++ lit "/analyze") (Obj [(lit "address", Str (lit "1 Main St"))])].
Proof.
  split; [reflexivity|].
  destruct (address_trimmed (lit "  1 Main St ")
              (Rejected (mkExn TypeError (lit "Failed to fetch"))) blank eq_refl)
    as (address & pre & post & R & _).
  vm_compute. reflexivity.
Defined.

End RequestFacts.

(* ================================================================== *)
(** * Attempts that fail part of the way *)
(* ================================================================== *)

Module PartialFacts.
Import JS Script Base64 Contract Observations DecodeFacts Steps Submission
       DecodeMore DownloadMore SubmitMore.
Local Open Scope script_scope.

Lemma call_toFixed_not_number expr v f :
  (forall x, v <> Num x) ->
  exists e, name e = TypeError /\ call_toFixed expr v f = Throw e.
Proof.
  intros Hv.
  destruct v as [| |b|y|s|props|elems]; cbn [call_toFixed];
    try (eexists; split; [|reflexivity]; reflexivity).
  now destruct (Hv y).
Qed.

(** X13.  Rendering is not all or nothing.  When the body has a readable
    address but its latitude is missing or is not a Number, rendering throws
    a [TypeError] after it has stored the report and written the address
    field, and before anything else: the coordinates, the elevations, the
    slope fields and the score keep their previous text and the result area
    is not shown. *)
Theorem rendering_stops_at_latitude (data pdf address latitude : value)
    (shown : jsstring) (st : page) :
  Get data "report_pdf" = Normal pdf ->
  Get data "address" = Normal address ->
  to_textContent address = Normal shown ->
  Get data "latitude" = Normal latitude ->
  (forall x, latitude <> Num x) ->
  exists e,
    name e = TypeError /\
    displayResults data st
    = (Throw e, mkPage pdf (hidden st) (upd (text st) resultAddress shown)
                       (SetText resultAddress shown :: StoreReport pdf :: trace st)).
Proof.
  intros Hpdf Haddr Hshown Hlat Hnum. destruct st as [c h t tr].
  destruct (call_toFixed_not_number "data.latitude.toFixed" latitude 6 Hnum)
    as (e & Hname & He).
  exists e. split; [exact Hname|].
  unfold displayResults.
  rewrite (bind_eval _ _ _ _ Hpdf), bind_set_currentReportPDF.
  rewrite (bind_eval _ _ _ _ Haddr), (bind_set_textContent _ _ _ _ _ _ _ _ Hshown).
  rewrite (bind_eval _ _ _ _ Hlat).
  unfold fixed. now rewrite (bind_eval_throw _ _ _ _ He).
Qed.

Lemma rendering_stops_at_latitude_witness :
  let data := Obj [(lit "address", Str (lit "1 Main St"));
                   (lit "latitude", Str (lit "40.76"))] in
  Get data "report_pdf" = Normal Undefined /\
  Get data "address" = Normal (Str (lit "1 Main St")) /\
  to_textContent (Str (lit "1 Main St")) = Normal (lit "1 Main St") /\
  Get data "latitude" = Normal (Str (lit "40.76")) /\
  (forall x, Str (lit "40.76") <> Num x) /\
  text (snd (displayResults data blank)) resultAddress = lit "1 Main St" /\
  text (snd (displayResults data blank)) resultCoords = [].
Proof.
  intros data.
  assert (Hn : forall x, Str (lit "40.76") <> Num x) by discriminate.
  repeat (split; [first [reflexivity | exact Hn]|]).
  destruct (rendering_stops_at_latitude data Undefined (Str (lit "1 Main St"))
              (Str (lit "40.76")) (lit "1 Main St") blank
              eq_refl eq_refl eq_refl eq_refl Hn) as (e & _ & E).
  rewrite E. split; reflexivity.
Defined.

(** ** A stored report outlives failed attempts *)

Lemma on_submit_keeps_report input net st :
  reaches_rendering net = false ->
  currentReportPDF (snd (on_submit input net st)) = currentReportPDF st.
Proof.
  intros Hr. destruct (trim input) as [|c rest] eqn:E.
  - now rewrite (on_submit_blank _ _ _ E).
  - rewrite on_submit_pending by (rewrite E; discriminate).
    destruct (respond_early net (awaiting_response input st) Hr) as (e & R).
    now rewrite R, settle_finally_throw.
Qed.

(** X14.  A report stays downloadable through failed attempts: when the
    stored payload is the base64 encoding of a non-empty byte sequence and a
    later submission is rejected, or answered with a response that is not
    [ok], or with a body that does not parse or is [null], a click on the
    download button afterwards still offers exactly those bytes. *)
Theorem report_survives_failure (input : jsstring) (net : fetch_outcome)
    (bytes : list byte) (st : page) :
  currentReportPDF st = Str (encode bytes) ->
  bytes <> [] ->
  reaches_rendering net = false ->
  let st1 := snd (on_submit input net st) in
  on_download st1
  = (Normal tt, mkPage (currentReportPDF st1) (hidden st1) (text st1)
                       (download_effects bytes ++ trace st1)).
Proof.
  intros Hst Hne Hr st1.
  apply (on_download_run st1 (encode bytes)).
  - subst st1. now rewrite on_submit_keeps_report.
  - now apply encode_nonempty.
  - apply decode_string, forgiving_decode_encode.
Qed.

Lemma report_survives_failure_witness :
  let held := mkPage (Str (encode ["%"; "P"; "D"; "F"]%byte))
                     (fun _ => true) (fun _ => []) [] in
  let net := Rejected (mkExn TypeError (lit "Failed to fetch")) in
  let st1 := snd (on_submit (lit "1 Main St") net held) in
  currentReportPDF held = Str (encode ["%"; "P"; "D"; "F"]%byte) /\
  ["%"; "P"; "D"; "F"]%byte <> [] /\
  reaches_rendering net = false /\
  trace (snd (on_download st1))
  = download_effects ["%"; "P"; "D"; "F"]%byte ++ trace st1.
Proof.
  intros held net st1.
  assert (Hne : ["%"; "P"; "D"; "F"]%byte <> []) by discriminate.
  split; [reflexivity|]. split; [exact Hne|]. split; [reflexivity|].
  subst st1.
  now rewrite (report_survives_failure (lit "1 Main St") net _ held eq_refl Hne eq_refl).
Defined.

End PartialFacts.
